(** * ytdl_gui: the job lifecycle of the YouTube downloader front-end

    A shallow embedding of [src/ytdl_gui.pyw]: the [YtDlGUI] controller
    (submission, cancellation, log channel) and the [_do_download] worker.

    Conventions.
    - A Python [str] is a Rocq [string] holding its UTF-8 encoding.
    - The attributes of [YtDlGUI] are the fields of the record [gui]; a method
      that mutates [self] is a function [gui -> gui].
    - Everything the program asks of its surroundings (the file system, the
      import system, the executable search path, the extraction library, the
      clipboard, the directory chooser) is a field of the record [world].
    - A worker thread runs beside the interface thread: in a run of the
      application ([app_run]) the handlers of the interface and the single
      statements of the live workers follow each other in any order. *)

From Stdlib Require Import Ascii String NArith ZArith Bool List Lia.
From stdpp Require Import base option list strings gmap.

(* ===================================================================== *)
(** * Python strings *)
(* ===================================================================== *)

Module PyStr.

Definition byte (c : ascii) : N := N_of_ascii c.

(** [str.strip()] without argument removes the code points for which
    [str.isspace()] holds.  In UTF-8 these are the one-byte code points
    U+0009..U+000D, U+001C..U+001F and U+0020, ... *)
Definition space1 (c : ascii) : bool :=
  let n := byte c in
  ((9 <=? n) && (n <=? 13) || (28 <=? n) && (n <=? 32))%N.

(** ... the two-byte code points U+0085 (C2 85) and U+00A0 (C2 A0), ... *)
Definition space2 (c1 c2 : ascii) : bool :=
  ((byte c1 =? 194) && ((byte c2 =? 133) || (byte c2 =? 160)))%N.

(** ... and the three-byte code points U+1680 (E1 9A 80), U+2000..U+200A
    (E2 80 80..8A), U+2028, U+2029, U+202F (E2 80 A8, A9, AF),
    U+205F (E2 81 9F) and U+3000 (E3 80 80). *)
Definition space3 (c1 c2 c3 : ascii) : bool :=
  let '(a, b, c) := (byte c1, byte c2, byte c3) in
  ((a =? 225) && (b =? 154) && (c =? 128)
   || (a =? 226) && (b =? 128)
      && ((128 <=? c) && (c <=? 138) || (c =? 168) || (c =? 169) || (c =? 175))
   || (a =? 226) && (b =? 129) && (c =? 159)
   || (a =? 227) && (b =? 128) && (c =? 128))%N.

(** Every code point of [s] is whitespace (true of the empty string). *)
Fixpoint blank (s : string) : bool :=
  match s with
  | EmptyString => true
  | String c1 s1 =>
      if space1 c1 then blank s1 else
      match s1 with
      | String c2 s2 =>
          if space2 c1 c2 then blank s2 else
          match s2 with
          | String c3 s3 => if space3 c1 c2 c3 then blank s3 else false
          | EmptyString => false
          end
      | EmptyString => false
      end
  end.

Fixpoint lstrip (s : string) : string :=
  match s with
  | EmptyString => EmptyString
  | String c1 s1 =>
      if space1 c1 then lstrip s1 else
      match s1 with
      | String c2 s2 =>
          if space2 c1 c2 then lstrip s2 else
          match s2 with
          | String c3 s3 => if space3 c1 c2 c3 then lstrip s3 else s
          | EmptyString => s
          end
      | EmptyString => s
      end
  end.

(** The longest prefix of [s] whose remainder is blank.  No whitespace
    encoding starts with a continuation byte, so the cut never falls
    inside a code point. *)
Fixpoint rstrip (s : string) : string :=
  match s with
  | EmptyString => EmptyString
  | String c s' => if blank s then EmptyString else String c (rstrip s')
  end.

Definition strip (s : string) : string := rstrip (lstrip s).

(** Truth value of a [str]: the empty string is false. *)
Definition truthy (s : string) : bool :=
  match s with EmptyString => false | String _ _ => true end.

(** [a or b] on strings. *)
Definition or_else (a b : string) : string := if truthy a then a else b.

Definition startswith (s p : string) : bool := String.prefix p s.

End PyStr.

(* ===================================================================== *)
(** * Data model *)
(* ===================================================================== *)

(** State of a [ttk.Button]. *)
Inductive btn_state := normal | disabled.

(** A call of [tkinter.messagebox]: the function, the title and the text. *)
Inductive dialog :=
| showwarning (title message : string)
| showerror (title message : string).

(** The arguments [(url, save_dir, as_mp3)] a worker thread is created with. *)
Record job := Job { job_url : string; job_save_dir : string; job_as_mp3 : bool }.

(** A raised exception: whether its class derives from [Exception] (what
    [except Exception] catches) and its [str()]. *)
Record exn := Exn { exn_is_Exception : bool; exn_str : string }.

(** Values stored in the [ydl_opts] dictionary. *)
Inductive pyval :=
| VStr (s : string)
| VBool (b : bool)
| VDicts (l : list (gmap string string))  (* a list of str -> str dictionaries *)
| VLogger                                 (* an instance of the local class [Logger] *)
| VHooks.                                 (* the list [[hook]] *)

(** The dictionary yt-dlp passes to a progress hook, with the keys [hook] reads. *)
Record progress := Progress {
  status : option string;
  eta : option Z;
  speed : option Z;
  downloaded_bytes : option Z;
  total_bytes : option Z;
  total_bytes_estimate : option Z }.

(** What yt-dlp does with the callbacks it was given while it works. *)
Inductive tool_event :=
| call_debug (msg : string)
| call_warning (msg : string)
| call_error (msg : string)
| call_hook (d : progress).

(** The surroundings of the program. *)
Record world := World {
  os_path_isdir : string -> bool;
  os_path_exists : string -> bool;
  os_path_join : string -> string -> string;
  (** [import yt_dlp]: [None] when the import succeeds, else the message of
      the exception it raises. *)
  import_yt_dlp : option string;
  (** [shutil.which("ffmpeg")]. *)
  which_ffmpeg : option string;
  (** [with yt_dlp.YoutubeDL(ydl_opts) as ydl: info = ydl.extract_info(url,
      download=True)]: the callbacks invoked, in order, and then either the
      exception raised or the value returned ([None] is Python's [None]). *)
  extract_info : gmap string pyval -> string ->
                 list tool_event * (exn + option (gmap string string));
  (** The text of the f-string of [hook] for [p], [total], [speed], [eta]
      (its floating-point formatting is not modelled). *)
  format_progress : Z -> Z -> option Z -> option Z -> string;
  (** [self.clipboard_get()], [None] when it raises. *)
  clipboard_get : option string;
  (** [filedialog.askdirectory(...)] for a given [initialdir]
      ([None] is Python's [None]). *)
  askdirectory : option string -> string;
  (** [str(Path.home() / "Downloads")], [None] when it raises. *)
  home_downloads : option string }.

(** The attributes of [YtDlGUI], and a record of what the program did to its
    surroundings: the message boxes shown, the threads started and not yet
    finished, the calls of the extraction library and of [os.startfile]. *)
Record gui := Gui {
  url_var : string;
  save_dir_var : string;
  as_mp3_var : bool;
  log_queue : list string;
  is_downloading : bool;
  worker_thread : option job;
  run_btn : btn_state;
  cancel_btn : btn_state;
  log_text : list string;          (* the chunks inserted at "end" *)
  dialogs : list dialog;
  threads : list job;
  extractions : list (gmap string pyval * string);
  startfiles : list string }.

Definition set_url_var (v : string) (s : gui) : gui :=
  Gui v (save_dir_var s) (as_mp3_var s) (log_queue s) (is_downloading s)
      (worker_thread s) (run_btn s) (cancel_btn s) (log_text s) (dialogs s)
      (threads s) (extractions s) (startfiles s).
Definition set_save_dir_var (v : string) (s : gui) : gui :=
  Gui (url_var s) v (as_mp3_var s) (log_queue s) (is_downloading s)
      (worker_thread s) (run_btn s) (cancel_btn s) (log_text s) (dialogs s)
      (threads s) (extractions s) (startfiles s).
Definition set_as_mp3_var (v : bool) (s : gui) : gui :=
  Gui (url_var s) (save_dir_var s) v (log_queue s) (is_downloading s)
      (worker_thread s) (run_btn s) (cancel_btn s) (log_text s) (dialogs s)
      (threads s) (extractions s) (startfiles s).
Definition set_log_queue (v : list string) (s : gui) : gui :=
  Gui (url_var s) (save_dir_var s) (as_mp3_var s) v (is_downloading s)
      (worker_thread s) (run_btn s) (cancel_btn s) (log_text s) (dialogs s)
      (threads s) (extractions s) (startfiles s).
Definition set_is_downloading (v : bool) (s : gui) : gui :=
  Gui (url_var s) (save_dir_var s) (as_mp3_var s) (log_queue s) v
      (worker_thread s) (run_btn s) (cancel_btn s) (log_text s) (dialogs s)
      (threads s) (extractions s) (startfiles s).
Definition set_worker_thread (v : option job) (s : gui) : gui :=
  Gui (url_var s) (save_dir_var s) (as_mp3_var s) (log_queue s) (is_downloading s)
      v (run_btn s) (cancel_btn s) (log_text s) (dialogs s)
      (threads s) (extractions s) (startfiles s).
Definition set_run_btn (v : btn_state) (s : gui) : gui :=
  Gui (url_var s) (save_dir_var s) (as_mp3_var s) (log_queue s) (is_downloading s)
      (worker_thread s) v (cancel_btn s) (log_text s) (dialogs s)
      (threads s) (extractions s) (startfiles s).
Definition set_cancel_btn (v : btn_state) (s : gui) : gui :=
  Gui (url_var s) (save_dir_var s) (as_mp3_var s) (log_queue s) (is_downloading s)
      (worker_thread s) (run_btn s) v (log_text s) (dialogs s)
      (threads s) (extractions s) (startfiles s).
Definition set_log_text (v : list string) (s : gui) : gui :=
  Gui (url_var s) (save_dir_var s) (as_mp3_var s) (log_queue s) (is_downloading s)
      (worker_thread s) (run_btn s) (cancel_btn s) v (dialogs s)
      (threads s) (extractions s) (startfiles s).
Definition set_dialogs (v : list dialog) (s : gui) : gui :=
  Gui (url_var s) (save_dir_var s) (as_mp3_var s) (log_queue s) (is_downloading s)
      (worker_thread s) (run_btn s) (cancel_btn s) (log_text s) v
      (threads s) (extractions s) (startfiles s).
Definition set_threads (v : list job) (s : gui) : gui :=
  Gui (url_var s) (save_dir_var s) (as_mp3_var s) (log_queue s) (is_downloading s)
      (worker_thread s) (run_btn s) (cancel_btn s) (log_text s) (dialogs s)
      v (extractions s) (startfiles s).
Definition set_extractions (v : list (gmap string pyval * string)) (s : gui) : gui :=
  Gui (url_var s) (save_dir_var s) (as_mp3_var s) (log_queue s) (is_downloading s)
      (worker_thread s) (run_btn s) (cancel_btn s) (log_text s) (dialogs s)
      (threads s) v (startfiles s).
Definition set_startfiles (v : list string) (s : gui) : gui :=
  Gui (url_var s) (save_dir_var s) (as_mp3_var s) (log_queue s) (is_downloading s)
      (worker_thread s) (run_btn s) (cancel_btn s) (log_text s) (dialogs s)
      (threads s) (extractions s) v.

(** The line feed of the Python literals. *)
Definition nl : string := String (ascii_of_nat 10) EmptyString.

(* ===================================================================== *)
(** * The controller: methods of [YtDlGUI] run by the interface thread *)
(* ===================================================================== *)

(** ** Log channel *)

(** [queue.Queue.put] on the unbounded queue: the item goes to the back. *)
Definition _log (text : string) (s : gui) : gui :=
  set_log_queue (log_queue s ++ [text]) s.

(** [log_text.insert("end", text + "\n")]. *)
Definition _append_log_line (text : string) (s : gui) : gui :=
  set_log_text (log_text s ++ [text +:+ nl]) s.

(** The [while True] loop of [_poll_log_queue] on a queue holding [q]:
    [get_nowait] takes the item at the front, and raises [queue.Empty], which
    ends the loop, when there is none. *)
Fixpoint drain (q : list string) (s : gui) : gui :=
  match q with
  | [] => s
  | line :: q' => drain q' (_append_log_line line (set_log_queue q' s))
  end.

(** [_poll_log_queue]; [self.after(100, ...)] schedules the next call, the
    event [Tick] below. *)
Definition _poll_log_queue (s : gui) : gui := drain (log_queue s) s.

(** ** Form fields *)

(** [ToggleSwitch._toggle] with [command = self._on_toggle_changed]
    ([_redraw] only paints). *)
Definition _on_toggle_changed (s : gui) : gui :=
  _log ("形式を切替: " +:+ (if as_mp3_var s then "MP3(音声)" else "MP4(動画)")) s.

Definition _toggle (s : gui) : gui :=
  _on_toggle_changed (set_as_mp3_var (negb (as_mp3_var s)) s).

Definition _paste_from_clipboard (w : world) (s : gui) : gui :=
  match clipboard_get w with
  | Some text => set_url_var text s
  | None => s
  end.

Definition _choose_dir (w : world) (s : gui) : gui :=
  let d := askdirectory w (if PyStr.truthy (save_dir_var s)
                           then Some (save_dir_var s) else None) in
  if PyStr.truthy d then set_save_dir_var d s else s.

(** ** Submission and cancellation *)

Definition messagebox (d : dialog) (s : gui) : gui :=
  set_dialogs (dialogs s ++ [d]) s.

(** [threading.Thread(target=self._do_download, args=...).start()]. *)
Definition thread_start (t : job) (s : gui) : gui :=
  set_threads (threads s ++ [t]) s.

(** The four message boxes of [_on_run_clicked]: the two warnings of the
    input checks and the two errors of the dependency checks. *)
Definition warn_url : dialog :=
  showwarning "入力不足" "URL を入力してください。".
Definition warn_save_dir : dialog :=
  showwarning "入力不足" "保存先フォルダを正しく指定してください。".
Definition err_yt_dlp : dialog :=
  showerror "エラー"
    ("yt-dlp が見つかりません。" +:+ nl +:+ nl +:+
     "pip install yt-dlp を実行してください。").
Definition err_ffmpeg : dialog :=
  showerror "エラー"
    ("ffmpeg が見つかりません。" +:+ nl +:+ nl +:+
     "ffmpeg をインストールして PATH に追加してください。").

(** What a valid submission does: lines 231-239. *)
Definition start_download (url save_dir : string) (s : gui) : gui :=
  let s := set_is_downloading true s in
  let s := set_run_btn disabled s in
  let s := set_cancel_btn normal s in
  let s := _log "ダウンロードを開始します…" s in
  let t := Job url save_dir (as_mp3_var s) in
  let s := set_worker_thread (Some t) s in
  thread_start t s.

Definition _on_run_clicked (w : world) (s : gui) : gui :=
  if is_downloading s then s else
  let url := PyStr.strip (PyStr.or_else (url_var s) "") in
  let save_dir := PyStr.strip (PyStr.or_else (save_dir_var s) "") in
  if negb (PyStr.truthy url) then messagebox warn_url s
  else if negb (PyStr.truthy save_dir) || negb (os_path_isdir w save_dir)
  then messagebox warn_save_dir s
  else
    match import_yt_dlp w with
    | Some _ => messagebox err_yt_dlp s
    | None =>
        match which_ffmpeg w with
        | None => messagebox err_ffmpeg s
        | Some _ => start_download url save_dir s
        end
    end.

Definition cancel_message : string :=
  "キャンセル要求を受け付けました。しばらくお待ちください…" +:+
  "（現在の処理単位が終わるまで継続する可能性があります）".

Definition _on_cancel_clicked (s : gui) : gui :=
  let s := _log cancel_message s in
  set_is_downloading false s.

(** ** Construction *)

Definition _build_widgets (w : world) (s : gui) : gui :=
  let s := _log "準備OK：URL と 保存先 を指定して、形式を切り替えてください。" s in
  match home_downloads w with
  | Some default_dl =>
      if os_path_isdir w default_dl then set_save_dir_var default_dl s else s
  | None => s
  end.

(** [YtDlGUI.__init__]: the run button is created enabled, the cancel button
    with [state="disabled"]. *)
Definition __init__ (w : world) : gui :=
  let s := Gui "" "" true [] false None normal disabled [] [] [] [] [] in
  let s := _build_widgets w s in
  _poll_log_queue s.

(* ===================================================================== *)
(** * The worker: [_do_download], run by the worker thread *)
(* ===================================================================== *)

(** ** Statements that may raise *)

(** A block of Python statements: from a state of [self] to the exception
    that left the block or the value it produced, and the state then. *)
Definition M (A : Type) : Type := gui -> (exn + A) * gui.

#[global] Instance M_ret : MRet M := fun A a s => (inr a, s).
#[global] Instance M_bind : MBind M := fun A B k m s =>
  match m s with
  | (inl e, s') => (inl e, s')
  | (inr a, s') => k a s'
  end.
Definition raise {A} (e : exn) : M A := fun s => (inl e, s).
Definition exec (f : gui -> gui) : M unit := fun s => (inr tt, f s).

(** [try: body / except Exception as e: handler e]. *)
Definition try_except {A} (body : M A) (handler : exn -> M A) : M A :=
  fun s => match body s with
           | (inl e, s') =>
               if exn_is_Exception e then handler e s' else (inl e, s')
           | r => r
           end.

(** [try: body / finally: final]: [final] runs however [body] ended, and an
    exception of [body] is raised again after it unless [final] raises. *)
Definition try_finally {A} (body : M A) (final : M unit) : M A :=
  fun s => match body s with
           | (r, s') =>
               match final s' with
               | (inl e, s'') => (inl e, s'')
               | (inr _, s'') => (r, s'')
               end
           end.

(** [try: os.startfile(path) / except Exception: pass]: the call is made,
    and its failure is swallowed. *)
Definition os_startfile (path : string) : M unit :=
  exec (fun s => set_startfiles (startfiles s ++ [path]) s).

(** ** Options of the extraction library *)

(** The [ydl_opts] of lines 265-312: the base options, the update chosen by
    [as_mp3], then the logger and the progress hook. *)
Definition ydl_opts (w : world) (save_dir : string) (as_mp3 : bool)
  : gmap string pyval :=
  let outtmpl := os_path_join w save_dir "%(title)s [%(id)s].%(ext)s" in
  let opts : gmap string pyval :=
    <["windowsfilenames" := VBool true]>
      (<["quiet" := VBool true]>
         (<["noprogress" := VBool true]>
            (<["outtmpl" := VStr outtmpl]> ∅))) in
  let opts :=
    if as_mp3 then
      <["postprocessors" :=
          VDicts [ <["preferredquality" := "192"]>
                     (<["preferredcodec" := "mp3"]>
                        (<["key" := "FFmpegExtractAudio"]> ∅)) ]]>
        (<["format" := VStr "bestaudio/best"]> opts)
    else
      <["merge_output_format" := VStr "mp4"]>
        (<["format" :=
             VStr "bestvideo[ext=mp4]+bestaudio[ext=m4a]/best[ext=mp4]/best"]> opts) in
  let opts := <["logger" := VLogger]> opts in
  <["progress_hooks" := VHooks]> opts.

(** ** Callbacks given to the extraction library *)

(** Truth value of an optional number: [None] and [0] are false. *)
Definition truthy_num (x : option Z) : bool :=
  match x with
  | Some z => negb (z =? 0)%Z
  | None => false
  end.

Definition or_num (x y : option Z) : option Z := if truthy_num x then x else y.

(** [hook(d)]. *)
Definition hook (w : world) (d : progress) (s : gui) : gui :=
  if decide (status d = Some "downloading") then
    let p := default 0%Z (downloaded_bytes d) in
    let total := or_num (total_bytes d) (total_bytes_estimate d) in
    match total with
    | Some t =>
        if truthy_num total
        then _log (format_progress w p t (speed d) (eta d)) s
        else s
    | None => s
    end
  else if decide (status d = Some "finished") then
    _log "変換/結合中…" s
  else s.

(** The methods of [Logger]; [_emit] is [self_outer._log]. *)
Definition Logger_debug (msg : string) (s : gui) : gui :=
  if PyStr.truthy msg && negb (PyStr.startswith msg "[debug]")
  then _log msg s else s.
Definition Logger_warning (msg : string) (s : gui) : gui := _log msg s.
Definition Logger_error (msg : string) (s : gui) : gui := _log msg s.

Definition callback (w : world) (ev : tool_event) (s : gui) : gui :=
  match ev with
  | call_debug msg => Logger_debug msg s
  | call_warning msg => Logger_warning msg s
  | call_error msg => Logger_error msg s
  | call_hook d => hook w d s
  end.

(** ** The body of the worker *)

(** [import yt_dlp] inside the worker. *)
Definition do_import (w : world) : M unit :=
  match import_yt_dlp w with
  | None => mret tt
  | Some msg => raise (Exn true msg)
  end.

(** The [with yt_dlp.YoutubeDL(ydl_opts) as ydl] block: the library calls the
    logger and the hook as it works, then returns or raises. *)
Definition run_extract (w : world) (opts : gmap string pyval) (url : string)
  : M (option (gmap string string)) :=
  fun s =>
    let '(evs, r) := extract_info w opts url in
    let s := set_extractions (extractions s ++ [(opts, url)]) s in
    (r, foldl (fun s ev => callback w ev s) s evs).

(** [info.get(key, dflt)]; on [None] the attribute lookup raises
    [AttributeError]. *)
Definition info_get (info : option (gmap string string)) (key dflt : string)
  : M string :=
  match info with
  | None => raise (Exn true "'NoneType' object has no attribute 'get'")
  | Some d => mret (default dflt (d !! key))
  end.

(** The [try] block of [_do_download] (lines 263-331). *)
Definition download (w : world) (url save_dir : string) (as_mp3 : bool)
  : M unit :=
  do_import w ;;
  info ← run_extract w (ydl_opts w save_dir as_mp3) url;
  title ← info_get info "title" "download";
  id ← info_get info "id" "id";
  let base := title +:+ " [" +:+ id +:+ "]." +:+
              (if as_mp3 then "mp3" else "mp4") in
  let saved_path := os_path_join w save_dir base in
  if os_path_exists w saved_path then
    exec (_log ("完了: " +:+ saved_path)) ;;
    os_startfile saved_path
  else
    exec (_log ("完了（注意：ファイル名が異なる可能性あり）。" +:+
                "保存先フォルダを開きます。")) ;;
    os_startfile save_dir.

(** The [except Exception as e] block (lines 334-335). *)
Definition report_error (e : exn) : M unit :=
  exec (_log ("エラー: " +:+ exn_str e)) ;;
  exec (messagebox (showerror "エラー"
          ("ダウンロードでエラーが発生しました:" +:+ nl +:+ exn_str e))).

(** The [finally] block (lines 337-340). *)
Definition cleanup : M unit :=
  exec (set_is_downloading false) ;;
  exec (set_run_btn normal) ;;
  exec (set_cancel_btn disabled) ;;
  exec (_log "待機中。別のURLで続けられます。").

Definition _do_download (w : world) (url save_dir : string) (as_mp3 : bool)
  : M unit :=
  try_finally (try_except (download w url save_dir as_mp3) report_error)
              cleanup.

(** The state of [self] when the thread created for [t] has run to its end. *)
Definition worker (w : world) (t : job) (s : gui) : gui :=
  snd (_do_download w (job_url t) (job_save_dir t) (job_as_mp3 t) s).

(* ===================================================================== *)
(** * The event loop *)
(* ===================================================================== *)

(** What the interface thread handles: the user edits a field, presses a
    button or the switch, or the poll timer fires. *)
Inductive event :=
| TypeUrl (text : string)
| TypeSaveDir (text : string)
| ClickPaste
| ClickBrowse
| ClickToggle
| ClickRun
| ClickCancel
| Tick.

(** Tk runs the [command] of a button only when the button is not disabled. *)
Definition press (b : btn_state) (command : gui -> gui) (s : gui) : gui :=
  match b with
  | normal => command s
  | disabled => s
  end.

Definition step (w : world) (ev : event) (s : gui) : gui :=
  match ev with
  | TypeUrl text => set_url_var text s
  | TypeSaveDir text => set_save_dir_var text s
  | ClickPaste => _paste_from_clipboard w s
  | ClickBrowse => _choose_dir w s
  | ClickToggle => _toggle s
  | ClickRun => press (run_btn s) (_on_run_clicked w) s
  | ClickCancel => press (cancel_btn s) _on_cancel_clicked s
  | Tick => _poll_log_queue s
  end.

(** A run of the interface thread alone: each event happens in the world of
    its time. *)
Definition run (tr : list (world * event)) (s : gui) : gui :=
  foldl (fun s we => step (fst we) (snd we) s) s tr.

(* ===================================================================== *)
(** * Sample surroundings *)
(* ===================================================================== *)

Module Sample.

Definition url : string := "https://example.com/watch?v=abc".
Definition dir : string := "/tmp/out".

Definition info : gmap string string :=
  <["id" := "abc"]> (<["title" := "Clip"]> ∅).

(** Both tools present; the extraction reports one debug line, one
    filtered debug line, progress, and succeeds. *)
Definition w_ok : world :=
  World (fun p => String.eqb p dir)
        (fun p => String.eqb p "/tmp/out/Clip [abc].mp3")
        (fun a b => a +:+ "/" +:+ b)
        None (Some "/usr/bin/ffmpeg")
        (fun _ _ =>
           ([call_debug "[youtube] abc: Downloading webpage";
             call_debug "[debug] skipped";
             call_hook (Progress (Some "downloading") (Some 3%Z) (Some 10%Z)
                                 (Some 50%Z) (Some 100%Z) None);
             call_hook (Progress (Some "finished") None None None None None)],
            inr (Some info)))
        (fun _ _ _ _ => "進行中")
        (Some url) (fun _ => dir) (Some dir).

(** The codec tool is missing. *)
Definition w_no_ffmpeg : world :=
  World (os_path_isdir w_ok) (os_path_exists w_ok) (os_path_join w_ok)
        None None (extract_info w_ok) (format_progress w_ok)
        (clipboard_get w_ok) (askdirectory w_ok) (home_downloads w_ok).

(** The extraction library is missing. *)
Definition w_no_yt_dlp : world :=
  World (os_path_isdir w_ok) (os_path_exists w_ok) (os_path_join w_ok)
        (Some "No module named 'yt_dlp'") (which_ffmpeg w_ok)
        (extract_info w_ok) (format_progress w_ok)
        (clipboard_get w_ok) (askdirectory w_ok) (home_downloads w_ok).

(** The extraction raises a [DownloadError]. *)
Definition w_fails : world :=
  World (os_path_isdir w_ok) (os_path_exists w_ok) (os_path_join w_ok)
        None (which_ffmpeg w_ok)
        (fun _ _ => ([call_error "ERROR: Unsupported URL"],
                     inl (Exn true "ERROR: Unsupported URL")))
        (format_progress w_ok)
        (clipboard_get w_ok) (askdirectory w_ok) (home_downloads w_ok).

(** The form as the user left it before pressing the run button. *)
Definition filled : gui := set_url_var url (__init__ w_ok).

(** The form with both fields empty. *)
Definition empty_form : gui := set_save_dir_var "" (__init__ w_ok).

(** The form with a URL of spaces, a tab and an ideographic space. *)
Definition blank_url_form : gui :=
  set_url_var ("  " +:+ String (ascii_of_nat 9) "　") (__init__ w_ok).

(** The form with a URL and a directory field of spaces only. *)
Definition blank_dir_form : gui := set_save_dir_var "   " filled.

End Sample.

(* ===================================================================== *)
(** * Observations used in the statements *)
(* ===================================================================== *)

(** What [_append_log_line] inserts for a line. *)
Definition chunk (text : string) : string := text +:+ nl.

(** The lines the interface has shown followed by those still queued. *)
Definition channel (s : gui) : list string :=
  log_text s ++ (chunk <$> log_queue s).

(** The two operations on the log channel: the producer's [_log] and the
    consumer's [_poll_log_queue]. *)
Inductive channel_op := put (line : string) | poll.

Definition channel_step (s : gui) (op : channel_op) : gui :=
  match op with
  | put line => _log line s
  | poll => _poll_log_queue s
  end.

(** The lines put by a sequence of operations, in the order of the puts. *)
Fixpoint puts (ops : list channel_op) : list string :=
  match ops with
  | [] => []
  | put line :: ops => line :: puts ops
  | poll :: ops => puts ops
  end.

(** What a run of the worker adds to the records of [self]: the lines it
    puts on the queue, the message boxes it shows, its calls of the
    extraction library and of [os.startfile]. *)
Record effects := Effects {
  lines_put : list string;
  boxes_shown : list dialog;
  library_calls : list (gmap string pyval * string);
  files_opened : list string }.

(** A state in which nothing has happened yet. *)
Definition blank_gui : gui :=
  Gui "" "" false [] false None normal normal [] [] [] [] [].

Definition effects_from_blank (s : gui) : effects :=
  Effects (log_queue s) (dialogs s) (extractions s) (startfiles s).

(** The effects of the worker for [t], read off its run in [blank_gui]. *)
Definition worker_effects (w : world) (t : job) : effects :=
  effects_from_blank (worker w t blank_gui).

(** [s'] is [s] with the effects [e] added and no other record changed. *)
Definition adds (e : effects) (s s' : gui) : Prop :=
  log_queue s' = log_queue s ++ lines_put e
  /\ dialogs s' = dialogs s ++ boxes_shown e
  /\ extractions s' = extractions s ++ library_calls e
  /\ startfiles s' = startfiles s ++ files_opened e.

(** The lines a callback of the extraction library puts on the queue. *)
Definition callback_lines (w : world) (ev : tool_event) : list string :=
  log_queue (callback w ev blank_gui).

(** The conditions under which [_on_run_clicked] starts a thread. *)
Definition submission_valid (w : world) (s : gui) : Prop :=
  PyStr.strip (url_var s) <> ""
  /\ PyStr.strip (save_dir_var s) <> ""
  /\ os_path_isdir w (PyStr.strip (save_dir_var s)) = true
  /\ import_yt_dlp w = None
  /\ which_ffmpeg w <> None.

(* ===================================================================== *)
(** * Worker threads, statement by statement *)
(* ===================================================================== *)


(** A worker thread runs beside the interface thread, so the events of the
    interface fall between its statements.  These are the statements of
    [_do_download] that touch [self] or the surroundings. *)
Inductive statement :=
| call_library (opts : gmap string pyval) (url : string)  (* lines 314-315 *)
| put_line (text : string)                                (* [self._log(text)] *)
| open_file (path : string)                               (* [os.startfile] *)
| show_error (d : dialog)                                 (* line 335 *)
| clear_flag                                              (* line 337 *)
| enable_run                                              (* line 338 *)
| disable_cancel.                                         (* line 339 *)

Definition perform (st : statement) (s : gui) : gui :=
  match st with
  | call_library opts url => set_extractions (extractions s ++ [(opts, url)]) s
  | put_line text => _log text s
  | open_file path => set_startfiles (startfiles s ++ [path]) s
  | show_error d => messagebox d s
  | clear_flag => set_is_downloading false s
  | enable_run => set_run_btn normal s
  | disable_cancel => set_cancel_btn disabled s
  end.

(** The statements of the [except] block for the exception [e]. *)
Definition except_block (e : exn) : list statement :=
  [put_line ("エラー: " +:+ exn_str e);
   show_error (showerror "エラー"
     ("ダウンロードでエラーが発生しました:" +:+ nl +:+ exn_str e))].

(** The statements of the [finally] block. *)
Definition finally_block : list statement :=
  [clear_flag; enable_run; disable_cancel;
   put_line "待機中。別のURLで続けられます。"].

(** The statements [_do_download] executes for the job [t] in the world [w],
    in order: those of the [try] block up to its end or to the exception,
    those of the [except] block when the exception derives from
    [Exception], and those of the [finally] block. *)
Definition script (w : world) (t : job) : list statement :=
  let '(Job url save_dir as_mp3) := t in
  match import_yt_dlp w with
  | Some msg => except_block (Exn true msg)
  | None =>
      let opts := ydl_opts w save_dir as_mp3 in
      let '(evs, r) := extract_info w opts url in
      call_library opts url :: (put_line <$> (evs ≫= callback_lines w)) ++
      match r with
      | inl e => if exn_is_Exception e then except_block e else []
      | inr None =>
          except_block (Exn true "'NoneType' object has no attribute 'get'")
      | inr (Some info) =>
          let base := default "download" (info !! "title") +:+ " [" +:+
                      default "id" (info !! "id") +:+ "]." +:+
                      (if as_mp3 then "mp3" else "mp4") in
          let saved_path := os_path_join w save_dir base in
          if os_path_exists w saved_path then
            [put_line ("完了: " +:+ saved_path); open_file saved_path]
          else
            [put_line ("完了（注意：ファイル名が異なる可能性あり）。" +:+
                       "保存先フォルダを開きます。");
             open_file save_dir]
      end
  end ++ finally_block.

(** The application: the state of [self], and for the [i]-th live thread
    the statements it has still to execute, [None] (or no entry) while it
    has executed none. *)
Record app := App {
  self : gui;
  todo : list (option (list statement)) }.

(** What happens next: the interface thread handles an event, or the
    [i]-th live worker thread executes its next statement (or, having
    none left, exits). *)
Inductive occurrence :=
| interface (ev : event)
| thread_runs (i : nat).

(** [l] with entries [None] added up to the length [n]. *)
Definition pad (n : nat) (l : list (option (list statement)))
  : list (option (list statement)) :=
  l ++ replicate (n - length l) None.

(** The statements the [i]-th live thread, created for [t], has still to
    execute; the world answers when the thread executes its first. *)
Definition remaining (w : world) (t : job) (i : nat) (a : app)
  : list statement :=
  match todo a !! i with
  | Some (Some rest) => rest
  | _ => script w t
  end.

Definition thread_step (w : world) (i : nat) (a : app) : app :=
  match threads (self a) !! i with
  | None => a
  | Some t =>
      match remaining w t i a with
      | [] =>
          App (set_threads (delete i (threads (self a))) (self a))
              (delete i (todo a))
      | st :: rest =>
          App (perform st (self a)) (<[i := Some rest]> (pad (S i) (todo a)))
      end
  end.

Definition app_step (w : world) (oc : occurrence) (a : app) : app :=
  match oc with
  | interface ev => App (step w ev (self a)) (todo a)
  | thread_runs i => thread_step w i a
  end.

(** A run of the application, interface and worker threads interleaved. *)
Definition app_run (tr : list (world * occurrence)) (a : app) : app :=
  foldl (fun a wo => app_step (fst wo) (snd wo) a) a tr.

(** The application when the window has been built. *)
Definition app_start (w : world) : app := App (__init__ w) [].

(** ** Where a thread stands *)

(** The statements of the [try] and [except] blocks: they touch neither the
    flag nor the buttons. *)
Definition harmless (st : statement) : bool :=
  match st with
  | clear_flag | enable_run | disable_cancel => false
  | _ => true
  end.

(** Line 337, or line 338, is among the statements [rest]. *)
Definition ahead_337 (rest : list statement) : bool :=
  existsb (fun st => match st with clear_flag => true | _ => false end) rest.
Definition ahead_338 (rest : list statement) : bool :=
  existsb (fun st => match st with enable_run => true | _ => false end) rest.

(** What the [i]-th thread has left, [None] while it has executed nothing. *)
Definition slot (a : app) (i : nat) : option (list statement) :=
  mjoin (todo a !! i).

(** The [i]-th thread has not yet executed line 337 (has not cleared the
    flag), or line 338 (has not re-enabled the run button). *)
Definition before_337 (a : app) (i : nat) : Prop :=
  match slot a i with
  | Some rest => ahead_337 rest = true
  | None => True
  end.
Definition before_338 (a : app) (i : nat) : Prop :=
  match slot a i with
  | Some rest => ahead_338 rest = true
  | None => True
  end.

(** What a thread that has begun can have left: statements of the [try] and
    [except] blocks followed by the whole [finally] block, or an end of the
    [finally] block. *)
Definition well_formed (rest : list statement) : Prop :=
  exists body k,
    Forall (fun st => harmless st = true) body
    /\ rest = body ++ drop k finally_block
    /\ (body = [] \/ k = 0).

(** The invariant of the interleaved runs. *)
Definition app_inv (a : app) : Prop :=
  let s := self a in
  let n := length (threads s) in
  length (todo a) <= n
  /\ (forall i rest, slot a i = Some rest -> well_formed rest)
  /\ (forall i j, i < n -> j < n -> before_338 a i -> before_338 a j -> i = j)
  /\ (forall i, i < n -> before_338 a i -> run_btn s = disabled)
  /\ (forall i, i < n -> before_338 a i -> ~ before_337 a i ->
        is_downloading s = false)
  /\ (is_downloading s = true -> exists i, i < n /\ before_337 a i).

(** The invariant on the inputs of the jobs: no live thread was created
    with an empty URL or directory, no thread has a call of the library on
    an empty URL ahead, and the library was never called on one. *)
Definition inputs_inv (a : app) : Prop :=
  (forall i t, threads (self a) !! i = Some t ->
     job_url t <> "" /\ job_save_dir t <> "")
  /\ (forall i rest o u, slot a i = Some rest ->
        call_library o u ∈ rest -> u <> "")
  /\ (forall o u, (o, u) ∈ extractions (self a) -> u <> "").

(* ===================================================================== *)
(** * The dependency check at start-up (lines 24-35) *)
(* ===================================================================== *)

(** The list [missing] once both checks are made. *)
Definition startup_missing (w : world) : list string :=
  let missing := [] in
  let missing := match import_yt_dlp w with
                 | Some _ => missing ++ ["yt-dlp"]
                 | None => missing
                 end in
  match which_ffmpeg w with
  | None => missing ++ ["ffmpeg"]
  | Some _ => missing
  end.

(** [sep.join(l)]. *)
Fixpoint join (sep : string) (l : list string) : string :=
  match l with
  | [] => ""
  | [x] => x
  | x :: l' => x +:+ sep +:+ join sep l'
  end.

(** What the module prints when it is loaded: nothing when [missing] is
    empty. *)
Definition startup_print (w : world) : option string :=
  match startup_missing w with
  | [] => None
  | missing =>
      Some ("以下が見つかりませんでした:" +:+ nl +:+ "- " +:+
            join (nl +:+ "- ") missing +:+
            nl +:+ nl +:+ "対処:" +:+ nl +:+ "  pip install yt-dlp" +:+ nl +:+
            "  ffmpeg をインストールして PATH に追加" +:+ nl +:+ nl +:+
            "アプリは起動しますが、ダウンロード時に失敗します。")
  end.

(* ===================================================================== *)
(** * The switch widget: [ToggleSwitch] *)
(* ===================================================================== *)

Module ToggleSwitch.

(** What [_redraw] creates on the canvas, with the coordinates and colours
    given. *)
Inductive item :=
| create_oval (x0 y0 x1 y1 : Z) (fill outline : string)
| create_rectangle (x0 y0 x1 y1 : Z) (fill outline : string)
| create_round_rect (x0 y0 x1 y1 radius : Z) (fill outline : string)
| create_text (x y : Z) (text fill : string) (font : string * Z * string).

(** The attributes of the widget.  [round_rect] tells whether the canvas
    has an attribute [create_round_rect] that is not [None]; the variable
    the widget is bound to lives in the application ([as_mp3_var]). *)
Record t := Make {
  on_text : string;
  off_text : string;
  width : Z;
  height : Z;
  radius : Z;
  round_rect : bool;
  canvas : list item }.

(** [_redraw] when the variable holds [on]: the canvas is emptied, then the
    track, the knob and the label are drawn. *)
Definition _redraw (on : bool) (sw : t) : t :=
  let '(w, h, r) := (width sw, height sw, radius sw) in
  let '(x0, y0, x1, y1) := (2, 2, w - 2, h - 2)%Z in
  let track_color := if on then "#34c759" else "#999999" in
  let knob_color := "#ffffff" in
  let track :=
    if negb (round_rect sw) then
      [create_oval x0 y0 (y0 * 1 + h - 4) y1 track_color track_color;
       create_oval (x1 - (h - 4)) y0 x1 y1 track_color track_color;
       create_rectangle (x0 + (h - 4) `div` 2) y0 (x1 - (h - 4) `div` 2) y1
                        track_color track_color]%Z
    else
      [create_round_rect x0 y0 x1 y1 (r - 2) track_color track_color]%Z in
  let pad := 3%Z in
  let knob_d := (h - pad * 2)%Z in
  let knob_x := (if on then x1 - pad - knob_d else x0 + pad)%Z in
  let knob :=
    create_oval knob_x pad (knob_x + knob_d) (pad + knob_d) knob_color "#dddddd" in
  let label := if on then on_text sw else off_text sw in
  let text :=
    create_text (w `div` 2) (h `div` 2) label "white" ("Meiryo UI", 10%Z, "bold") in
  Make (on_text sw) (off_text sw) (width sw) (height sw) (radius sw)
       (round_rect sw) (track ++ [knob; text]).

(** [__init__] for a variable holding [on]. *)
Definition __init__ (on : bool) (on_text off_text : string) (width height : Z)
    (round_rect : bool) : t :=
  _redraw on (Make on_text off_text width height (height `div` 2) round_rect []).

(** [_toggle] of the switch of the application, whose variable is
    [as_mp3_var] and whose [command] is [_on_toggle_changed]: the write to
    the variable fires the trace, which redraws; then the explicit redraw and
    the command. *)
Definition _toggle (sw : t) (s : gui) : t * gui :=
  let s := set_as_mp3_var (negb (as_mp3_var s)) s in
  let sw := _redraw (as_mp3_var s) sw in
  let sw := _redraw (as_mp3_var s) sw in
  (sw, _on_toggle_changed s).

(** The switch [_build_widgets] creates (lines 159-167), on a canvas without
    [create_round_rect] unless [round_rect] says otherwise. *)
Definition of_app (round_rect : bool) (s : gui) : t :=
  __init__ (as_mp3_var s) "MP3（音声）" "MP4（動画）" 180 36 round_rect.

(** The box [(x0, y0, x1, y1)] lies inside the box [(X0, Y0, X1, Y1)]. *)
Definition inside (b B : Z * Z * Z * Z) : Prop :=
  let '(x0, y0, x1, y1) := b in
  let '(X0, Y0, X1, Y1) := B in
  (X0 <= x0 /\ x0 <= x1 /\ x1 <= X1 /\ Y0 <= y0 /\ y0 <= y1 /\ y1 <= Y1)%Z.

End ToggleSwitch.

(* ===================================================================== *)
(** * Further sample surroundings *)
(* ===================================================================== *)

Module Sample2.

(** The extraction returns [None]. *)
Definition w_none : world :=
  World (os_path_isdir Sample.w_ok) (os_path_exists Sample.w_ok)
        (os_path_join Sample.w_ok) None (which_ffmpeg Sample.w_ok)
        (fun _ _ => ([], inr None)) (format_progress Sample.w_ok)
        (clipboard_get Sample.w_ok) (askdirectory Sample.w_ok)
        (home_downloads Sample.w_ok).

(** The extraction is interrupted by an exception that does not derive from
    [Exception]. *)
Definition w_interrupt : world :=
  World (os_path_isdir Sample.w_ok) (os_path_exists Sample.w_ok)
        (os_path_join Sample.w_ok) None (which_ffmpeg Sample.w_ok)
        (fun _ _ => ([call_debug "[download] 10%"], inl (Exn false "")))
        (format_progress Sample.w_ok)
        (clipboard_get Sample.w_ok) (askdirectory Sample.w_ok)
        (home_downloads Sample.w_ok).

Definition job : job := Job Sample.url Sample.dir true.

(** A state with the job of [Sample.filled] started. *)
Definition started : gui := _on_run_clicked Sample.w_ok Sample.filled.

End Sample2.

(* ===================================================================== *)
(** * Python strings: properties *)
(* ===================================================================== *)

Example strip_ex1 : PyStr.strip "  https://example.com/watch?v=abc  " = "https://example.com/watch?v=abc".
Proof. reflexivity. Qed.
Example strip_ex2 : PyStr.strip " 　 " = "".
Proof. reflexivity. Qed.
Example strip_ex3 : PyStr.strip "　保存 先　" = "保存 先".
Proof. reflexivity. Qed.

(* ===================================================================== *)
(** * The log channel *)
(* ===================================================================== *)

Section LogChannel.

Lemma drain_eq q s :
  log_queue s = q ->
  drain q s = set_log_queue [] (set_log_text (log_text s ++ (chunk <$> q)) s).
Proof.
  revert s. induction q as [|line q IH]; intros s Hq.
  - destruct s; simpl in *. subst. by rewrite app_nil_r.
  - simpl. rewrite IH by reflexivity.
    destruct s; simpl. unfold set_log_queue, set_log_text; simpl.
    by rewrite <- app_assoc.
Qed.

Lemma poll_eq s :
  _poll_log_queue s = set_log_queue [] (set_log_text (channel s) s).
Proof. unfold _poll_log_queue. by rewrite drain_eq. Qed.

Lemma channel_log text s : channel (_log text s) = channel s ++ [chunk text].
Proof. unfold channel; simpl. by rewrite fmap_app, app_assoc. Qed.

Lemma channel_poll s : channel (_poll_log_queue s) = channel s.
Proof. rewrite poll_eq. unfold channel at 1; simpl. apply app_nil_r. Qed.

Lemma channel_ops ops : forall s,
  channel (foldl channel_step s ops) = channel s ++ (chunk <$> puts ops).
Proof.
  induction ops as [|[line|] ops IH]; intros s; simpl.
  - by rewrite app_nil_r.
  - rewrite IH, channel_log. by rewrite <- app_assoc.
  - by rewrite IH, channel_poll.
Qed.

End LogChannel.

(** C5. However the worker's puts and the interface's polls interleave, the
    lines shown followed by the lines still queued are the lines that were
    there before followed by the lines put, in the order they were put; and
    a poll then shows all of them and leaves the queue empty.  So the drain
    never reorders, drops or duplicates a line. *)
Theorem log_lines_rendered_in_order (ops : list channel_op) (s : gui) :
  let s' := foldl channel_step s ops in
  log_text s' ++ (chunk <$> log_queue s')
    = log_text s ++ (chunk <$> log_queue s) ++ (chunk <$> puts ops)
  /\ log_text (_poll_log_queue s')
    = log_text s ++ (chunk <$> (log_queue s ++ puts ops))
  /\ log_queue (_poll_log_queue s') = [].
Proof.
  pose proof (channel_ops ops s) as H. unfold channel in H. simpl.
  split; [by rewrite H, <- app_assoc|]. split.
  - rewrite poll_eq; simpl. unfold channel. rewrite H.
    by rewrite fmap_app, <- app_assoc.
  - by rewrite poll_eq.
Qed.

(* ===================================================================== *)
(** * Submission *)
(* ===================================================================== *)

Section Strings.
Import PyStr.

Lemma or_else_empty x : or_else x "" = x.
Proof. by destruct x. Qed.

Lemma truthy_false x : truthy x = false <-> x = "".
Proof. destruct x; simpl; split; congruence. Qed.

Lemma truthy_true x : truthy x = true <-> x <> "".
Proof. destruct x; simpl; split; congruence. Qed.

Lemma blank_lstrip_len n : forall s,
  String.length s <= n -> blank s = true -> lstrip s = "".
Proof.
  induction n as [|n IH]; intros s Hn Hb.
  - destruct s; [done | simpl in Hn; lia].
  - destruct s as [|c1 s1]; [done|].
    cbn [blank lstrip] in *. simpl in Hn.
    destruct (space1 c1); [apply IH; [lia | done]|].
    destruct s1 as [|c2 s2]; [done|]. simpl in Hn.
    destruct (space2 c1 c2); [apply IH; [lia | done]|].
    destruct s2 as [|c3 s3]; [done|]. simpl in Hn.
    destruct (space3 c1 c2 c3); [apply IH; [lia | done] | done].
Qed.

Lemma blank_strip s : blank s = true -> strip s = "".
Proof.
  intros Hb. unfold strip.
  by rewrite (blank_lstrip_len (String.length s) s).
Qed.

End Strings.

Section Submission.
Variable w : world.

(** The handler once the guard on [is_downloading] is passed. *)
Lemma run_clicked_idle s :
  is_downloading s = false ->
  _on_run_clicked w s =
    let url := PyStr.strip (url_var s) in
    let save_dir := PyStr.strip (save_dir_var s) in
    if negb (PyStr.truthy url) then messagebox warn_url s
    else if negb (PyStr.truthy save_dir) || negb (os_path_isdir w save_dir)
    then messagebox warn_save_dir s
    else match import_yt_dlp w with
         | Some _ => messagebox err_yt_dlp s
         | None => match which_ffmpeg w with
                   | None => messagebox err_ffmpeg s
                   | Some _ => start_download url save_dir s
                   end
         end.
Proof.
  intros Hidle. unfold _on_run_clicked. rewrite Hidle.
  by rewrite !or_else_empty.
Qed.

Lemma run_clicked_running s :
  is_downloading s = true -> _on_run_clicked w s = s.
Proof. intros H. unfold _on_run_clicked. by rewrite H. Qed.

End Submission.

(** C10. In the idle state the checks of a submission are made in the order
    URL, directory, extraction library, codec tool, and the message box of
    the first failing check is the only thing the submission does: an empty
    URL adds the URL warning, and nothing else, to the message boxes shown,
    whatever the directory and the tools are, and so on down the list; no
    thread is started and the flag, the buttons and the queue stay as they
    were. *)
Theorem precondition_checks_in_order (w : world) (s : gui) :
  is_downloading s = false ->
  let url := PyStr.strip (url_var s) in
  let save_dir := PyStr.strip (save_dir_var s) in
  let s' := _on_run_clicked w s in
  let reports_only d :=
    dialogs s' = dialogs s ++ [d]
    /\ threads s' = threads s /\ worker_thread s' = worker_thread s
    /\ is_downloading s' = false
    /\ run_btn s' = run_btn s /\ cancel_btn s' = cancel_btn s
    /\ log_queue s' = log_queue s in
  (url = "" ->
   reports_only (showwarning "入力不足" "URL を入力してください。"))
  /\ (url <> "" ->
      save_dir = "" \/ os_path_isdir w save_dir = false ->
      reports_only (showwarning "入力不足" "保存先フォルダを正しく指定してください。"))
  /\ (url <> "" -> save_dir <> "" -> os_path_isdir w save_dir = true ->
      import_yt_dlp w <> None ->
      reports_only (showerror "エラー"
        ("yt-dlp が見つかりません。" +:+ nl +:+ nl +:+
         "pip install yt-dlp を実行してください。")))
  /\ (url <> "" -> save_dir <> "" -> os_path_isdir w save_dir = true ->
      import_yt_dlp w = None -> which_ffmpeg w = None ->
      reports_only (showerror "エラー"
        ("ffmpeg が見つかりません。" +:+ nl +:+ nl +:+
         "ffmpeg をインストールして PATH に追加してください。"))).
Proof.
  intros Hidle url save_dir s' reports_only. subst s' reports_only.
  rewrite (run_clicked_idle w s Hidle). fold url save_dir. cbv zeta.
  split; [|split; [|split]].
  - intros Hu. apply truthy_false in Hu. rewrite Hu. simpl.
    by rewrite Hidle.
  - intros Hu Hd. apply truthy_true in Hu. rewrite Hu. simpl.
    destruct Hd as [Hd|Hd]; [apply truthy_false in Hd|]; rewrite Hd; simpl;
      rewrite ?orb_true_r; simpl; by rewrite Hidle.
  - intros Hu Hd Hdir Himp. apply truthy_true in Hu, Hd.
    rewrite Hu, Hd, Hdir. simpl.
    destruct (import_yt_dlp w); [|done]. simpl. by rewrite Hidle.
  - intros Hu Hd Hdir Himp Hff. apply truthy_true in Hu, Hd.
    rewrite Hu, Hd, Hdir, Himp, Hff. simpl. by rewrite Hidle.
Qed.

Lemma precondition_checks_in_order_witness :
  dialogs (_on_run_clicked Sample.w_no_ffmpeg Sample.empty_form)
    = [showwarning "入力不足" "URL を入力してください。"]
  /\ dialogs (_on_run_clicked Sample.w_no_yt_dlp Sample.filled)
    = [showerror "エラー"
         ("yt-dlp が見つかりません。" +:+ nl +:+ nl +:+
          "pip install yt-dlp を実行してください。")].
Proof.
  split.
  - apply (precondition_checks_in_order Sample.w_no_ffmpeg Sample.empty_form);
      reflexivity.
  - apply (precondition_checks_in_order Sample.w_no_yt_dlp Sample.filled);
      [reflexivity | discriminate | discriminate | reflexivity | discriminate].
Defined.

(** C3. In the idle state a submission whose URL, once stripped, is empty,
    or whose directory, once stripped, is empty or is not an existing
    directory, shows a warning of the input checks, starts no thread and
    changes neither the flag nor the buttons; any other submission, with the
    extraction library importable and the codec tool on the search path,
    sets the flag, disables the run button, enables the cancel button and
    starts one thread on the stripped URL and directory and the current
    value of the switch. *)
Theorem submit_validates_or_starts (w : world) (s : gui) :
  is_downloading s = false ->
  let url := PyStr.strip (url_var s) in
  let save_dir := PyStr.strip (save_dir_var s) in
  let s' := _on_run_clicked w s in
  (url = "" \/ save_dir = "" \/ os_path_isdir w save_dir = false ->
   (exists message, dialogs s' = dialogs s ++ [showwarning "入力不足" message])
   /\ threads s' = threads s
   /\ is_downloading s' = false
   /\ run_btn s' = run_btn s /\ cancel_btn s' = cancel_btn s)
  /\ (url <> "" -> save_dir <> "" -> os_path_isdir w save_dir = true ->
      import_yt_dlp w = None -> which_ffmpeg w <> None ->
      is_downloading s' = true
      /\ run_btn s' = disabled /\ cancel_btn s' = normal
      /\ threads s' = threads s ++ [Job url save_dir (as_mp3_var s)]
      /\ dialogs s' = dialogs s).
Proof.
  intros Hidle url save_dir s'. subst s'.
  rewrite (run_clicked_idle w s Hidle). fold url save_dir. cbv zeta.
  split.
  - intros Hbad.
    destruct (PyStr.truthy url) eqn:Hu; simpl.
    + assert (negb (PyStr.truthy save_dir) || negb (os_path_isdir w save_dir)
              = true) as ->.
      { destruct Hbad as [H|[H|H]].
        - apply truthy_false in H. congruence.
        - apply truthy_false in H. by rewrite H.
        - rewrite H. apply orb_true_r. }
      repeat split; eauto.
    + repeat split; eauto.
  - intros Hu Hd Hdir Himp Hff. apply truthy_true in Hu, Hd.
    rewrite Hu, Hd, Hdir, Himp. simpl.
    destruct (which_ffmpeg w); [done | congruence].
Qed.

Lemma submit_validates_or_starts_witness :
  (exists message,
     dialogs (_on_run_clicked Sample.w_ok Sample.empty_form)
       = dialogs Sample.empty_form ++ [showwarning "入力不足" message])
  /\ threads (_on_run_clicked Sample.w_ok Sample.filled)
     = [Job Sample.url Sample.dir true].
Proof.
  split.
  - apply (submit_validates_or_starts Sample.w_ok Sample.empty_form);
      [reflexivity | by left].
  - apply (submit_validates_or_starts Sample.w_ok Sample.filled);
      [reflexivity | discriminate | discriminate | reflexivity | reflexivity
      | discriminate].
Defined.

(** C4, as stated, fails: with the codec tool missing and the URL field
    empty, the submission reports the URL warning of the input checks and no
    dependency error at all. *)
Lemma dependency_error_not_reported_on_empty_url :
  which_ffmpeg Sample.w_no_ffmpeg = None
  /\ is_downloading Sample.empty_form = false
  /\ dialogs Sample.empty_form = []
  /\ dialogs (_on_run_clicked Sample.w_no_ffmpeg Sample.empty_form)
     = [showwarning "入力不足" "URL を入力してください。"].
Proof. repeat split. Qed.

(** C4, amended. A submission made while the extraction library cannot be
    imported or the codec tool is not on the search path never starts a
    thread and never changes the flag; and when it is made in the idle
    state with a stripped URL that is not empty and a stripped directory
    that exists, it does nothing but show a dependency error (the one of
    the extraction library when both are missing). *)
Theorem missing_tool_blocks_submission (w : world) (s : gui) :
  import_yt_dlp w <> None \/ which_ffmpeg w = None ->
  let url := PyStr.strip (url_var s) in
  let save_dir := PyStr.strip (save_dir_var s) in
  let s' := _on_run_clicked w s in
  (threads s' = threads s /\ is_downloading s' = is_downloading s)
  /\ (is_downloading s = false ->
      url <> "" -> save_dir <> "" -> os_path_isdir w save_dir = true ->
      s' = messagebox (match import_yt_dlp w with
                       | Some _ => err_yt_dlp
                       | None => err_ffmpeg
                       end) s
      /\ exists message,
           dialogs s' = dialogs s ++ [showerror "エラー" message]).
Proof.
  intros Hmiss url save_dir s'. subst s'.
  destruct (is_downloading s) eqn:Hidle.
  { rewrite run_clicked_running by done. by rewrite Hidle. }
  rewrite (run_clicked_idle w s Hidle). fold url save_dir. cbv zeta.
  split.
  - destruct (negb (PyStr.truthy url)); [done|].
    destruct (negb (PyStr.truthy save_dir) || negb (os_path_isdir w save_dir));
      [done|].
    destruct (import_yt_dlp w); [done|].
    destruct (which_ffmpeg w); [|done].
    by destruct Hmiss.
  - intros _ Hu Hd Hdir. apply truthy_true in Hu, Hd.
    rewrite Hu, Hd, Hdir. simpl.
    destruct (import_yt_dlp w); [by eauto|].
    destruct (which_ffmpeg w); [by destruct Hmiss | by eauto].
Qed.

Lemma missing_tool_blocks_submission_witness :
  _on_run_clicked Sample.w_no_ffmpeg Sample.filled
    = messagebox err_ffmpeg Sample.filled
  /\ threads (_on_run_clicked Sample.w_no_ffmpeg Sample.filled) = [].
Proof.
  split.
  - apply (missing_tool_blocks_submission Sample.w_no_ffmpeg Sample.filled);
      [by right | reflexivity | discriminate | discriminate | reflexivity].
  - apply (missing_tool_blocks_submission Sample.w_no_ffmpeg Sample.filled).
    by right.
Defined.

(** C8. The fields are stripped before they are checked: in the idle state
    a URL field holding nothing but whitespace gets the URL warning, and,
    the URL being present, a directory field holding nothing but whitespace
    gets the directory warning.  In both cases the warning is added to the
    message boxes shown and nothing else happens: no thread is started, and
    the flag, the buttons and the queue stay as they were; and the same
    submission with the field empty does the same. *)
Theorem whitespace_only_fields_rejected (w : world) (s : gui) :
  is_downloading s = false ->
  let warned d s0 :=
    let s' := _on_run_clicked w s0 in
    dialogs s' = dialogs s0 ++ [d]
    /\ threads s' = threads s0 /\ worker_thread s' = worker_thread s0
    /\ is_downloading s' = false
    /\ run_btn s' = run_btn s0 /\ cancel_btn s' = cancel_btn s0
    /\ log_queue s' = log_queue s0 in
  (PyStr.blank (url_var s) = true ->
   warned (showwarning "入力不足" "URL を入力してください。") s
   /\ warned (showwarning "入力不足" "URL を入力してください。") (set_url_var "" s))
  /\ (PyStr.strip (url_var s) <> "" -> PyStr.blank (save_dir_var s) = true ->
      warned (showwarning "入力不足" "保存先フォルダを正しく指定してください。") s
      /\ warned (showwarning "入力不足" "保存先フォルダを正しく指定してください。")
                (set_save_dir_var "" s)).
Proof.
  intros Hidle warned. subst warned. cbv beta zeta. split.
  - intros Hb.
    rewrite (run_clicked_idle w s Hidle), (run_clicked_idle w (set_url_var "" s))
      by done.
    cbv zeta. simpl url_var. rewrite (blank_strip _ Hb). simpl.
    by rewrite Hidle.
  - intros Hu Hb. apply truthy_true in Hu.
    rewrite (run_clicked_idle w s Hidle),
      (run_clicked_idle w (set_save_dir_var "" s)) by done.
    cbv zeta. simpl url_var. simpl save_dir_var.
    rewrite Hu, (blank_strip _ Hb). simpl. by rewrite Hidle.
Qed.

Lemma whitespace_only_fields_rejected_witness :
  dialogs (_on_run_clicked Sample.w_ok Sample.blank_url_form)
    = [showwarning "入力不足" "URL を入力してください。"]
  /\ dialogs (_on_run_clicked Sample.w_ok Sample.blank_dir_form)
    = [showwarning "入力不足" "保存先フォルダを正しく指定してください。"]
  /\ threads (_on_run_clicked Sample.w_ok Sample.blank_dir_form) = [].
Proof.
  split; [|split].
  - apply (whitespace_only_fields_rejected Sample.w_ok Sample.blank_url_form);
      reflexivity.
  - apply (whitespace_only_fields_rejected Sample.w_ok Sample.blank_dir_form);
      [reflexivity | discriminate | reflexivity].
  - apply (whitespace_only_fields_rejected Sample.w_ok Sample.blank_dir_form);
      [reflexivity | discriminate | reflexivity].
Defined.

(* ===================================================================== *)
(** * The worker *)
(* ===================================================================== *)

(** Evaluates the field updates of a state given by its constructor,
    innermost first, and normalises the appended lists. *)
Ltac gui_simpl :=
  cbv beta iota zeta delta
    [_log messagebox thread_start set_url_var set_save_dir_var
     set_as_mp3_var set_log_queue set_is_downloading set_worker_thread
     set_run_btn set_cancel_btn set_log_text set_dialogs set_threads
     set_extractions set_startfiles
     url_var save_dir_var as_mp3_var log_queue is_downloading worker_thread
     run_btn cancel_btn log_text dialogs threads extractions startfiles
     lines_put boxes_shown library_calls files_opened effects_from_blank
     blank_gui];
  rewrite ?app_nil_r, <- ?app_assoc; simpl.

Section Worker.
Variable w : world.

Lemma set_log_queue_id s : set_log_queue (log_queue s ++ []) s = s.
Proof. destruct s; unfold set_log_queue; simpl. by rewrite app_nil_r. Qed.

(** A callback only puts lines on the queue, and which lines does not
    depend on the state. *)
Lemma callback_frame ev s :
  callback w ev s = set_log_queue (log_queue s ++ callback_lines w ev) s.
Proof.
  unfold callback_lines.
  destruct ev as [msg|msg|msg|d]; simpl; try reflexivity.
  - unfold Logger_debug. case_match; [reflexivity|].
    by rewrite set_log_queue_id.
  - unfold hook. repeat case_match; try reflexivity;
      by rewrite set_log_queue_id.
Qed.

Lemma callbacks_frame evs : forall s,
  foldl (fun s ev => callback w ev s) s evs
  = set_log_queue (log_queue s ++ (evs ≫= callback_lines w)) s.
Proof.
  induction evs as [|ev evs IH]; intros s; simpl.
  - by rewrite set_log_queue_id.
  - rewrite IH, callback_frame. destruct s; unfold set_log_queue; simpl.
    by rewrite <- app_assoc.
Qed.

(** The frame property of the worker: it leaves the form fields, the log
    pane and the thread records alone, adds its effects, which depend on
    the job and the world only, and ends with the flag cleared, the run
    button enabled and the cancel button disabled. *)
Lemma worker_frame t s :
  worker w t s =
    let e := worker_effects w t in
    Gui (url_var s) (save_dir_var s) (as_mp3_var s)
        (log_queue s ++ lines_put e) false (worker_thread s)
        normal disabled (log_text s) (dialogs s ++ boxes_shown e)
        (threads s) (extractions s ++ library_calls e)
        (startfiles s ++ files_opened e).
Proof.
  unfold worker_effects, worker, _do_download, try_finally, try_except.
  unfold cleanup, report_error, download.
  unfold do_import, run_extract, info_get, os_startfile, exec, raise.
  unfold mbind, mret, M_bind, M_ret.
  destruct t as [url save_dir as_mp3]; simpl.
  destruct (import_yt_dlp w) as [msg|]; simpl.
  { destruct s. by gui_simpl. }
  destruct (extract_info w (ydl_opts w save_dir as_mp3) url) as [evs r].
  rewrite !callbacks_frame.
  destruct r as [e|[info|]]; simpl.
  - destruct (exn_is_Exception e); destruct s; by gui_simpl.
  - destruct (os_path_exists w _); destruct s; by gui_simpl.
  - destruct s; by gui_simpl.
Qed.

Lemma worker_adds t s : adds (worker_effects w t) s (worker w t s).
Proof. rewrite worker_frame. by repeat split. Qed.

End Worker.

(** The scenario of an audio job with both tools present: the worker runs
    its ten statements and exits, the flag returns to idle, and after a poll
    the log pane ends with the completion line for the [.mp3] file under the
    directory. *)
Example audio_job_completes :
  let a := app_run ([(Sample.w_ok, interface ClickRun)]
                    ++ replicate 11 (Sample.w_ok, thread_runs 0)
                    ++ [(Sample.w_ok, interface Tick)])
                   (App Sample.filled []) in
  todo a = []
  /\ is_downloading (self a) = false
  /\ threads (self a) = []
  /\ startfiles (self a) = ["/tmp/out/Clip [abc].mp3"]
  /\ drop 2 (log_text (self a))
     = chunk <$> ["[youtube] abc: Downloading webpage"; "進行中"; "変換/結合中…";
                  "完了: /tmp/out/Clip [abc].mp3";
                  "待機中。別のURLで続けられます。"].
Proof. vm_compute. repeat split. Qed.

(** A failing extraction: the error is logged and shown, nothing is opened,
    and the buttons are restored. *)
Example failing_job_reports_error :
  let a := app_run ([(Sample.w_ok, interface ClickRun)]
                    ++ replicate 9 (Sample.w_fails, thread_runs 0))
                   (App Sample.filled []) in
  let s := self a in
  todo a = [] /\ threads s = []
  /\ is_downloading s = false /\ run_btn s = normal /\ cancel_btn s = disabled
  /\ startfiles s = []
  /\ dialogs s
     = [showerror "エラー"
          ("ダウンロードでエラーが発生しました:" +:+ nl +:+ "ERROR: Unsupported URL")]
  /\ log_queue s
     = ["ダウンロードを開始します…"; "ERROR: Unsupported URL";
        "エラー: ERROR: Unsupported URL"; "待機中。別のURLで続けられます。"].
Proof. vm_compute. repeat split. Qed.

(** C2. Whatever the worker body does (it returns, it raises an exception
    that [except Exception] catches and reports, or it raises one that
    passes through), the [finally] block has run when the worker ends: the
    flag is cleared, the run button enabled and the cancel button disabled.
    This holds of [_do_download] in every world, and of the [finally] block
    after any [try] block at all. *)
Theorem worker_always_restores_idle
    (w : world) (url save_dir : string) (as_mp3 : bool) (s : gui) :
  let idle s' :=
    is_downloading s' = false /\ run_btn s' = normal /\ cancel_btn s' = disabled in
  idle (snd (_do_download w url save_dir as_mp3 s))
  /\ forall body : M unit, idle (snd (try_finally body cleanup s)).
Proof.
  assert (forall body : M unit,
    is_downloading (snd (try_finally body cleanup s)) = false
    /\ run_btn (snd (try_finally body cleanup s)) = normal
    /\ cancel_btn (snd (try_finally body cleanup s)) = disabled) as Hany.
  { intros body. unfold try_finally. by destruct (body s) as [[e|[]] s']. }
  split; [apply Hany | exact Hany].
Qed.

(** C6. The options given to the extraction library are chosen by the
    format alone.  For audio: the selector [bestaudio/best] and one
    post-processor, [FFmpegExtractAudio] to [mp3] at quality [192], and no
    merge.  For video: the selector
    [bestvideo[ext=mp4]+bestaudio[ext=m4a]/best[ext=mp4]/best], whose
    alternatives are tried from left to right, merged into [mp4], and no
    post-processor.  Apart from the output template, which holds the
    directory, two jobs of the same format get the same options; and these
    options are what the worker calls the library with. *)
Theorem options_selected_by_format (w : world) (save_dir : string) :
  let audio := ydl_opts w save_dir true in
  let video := ydl_opts w save_dir false in
  audio !! "format" = Some (VStr "bestaudio/best")
  /\ audio !! "postprocessors"
     = Some (VDicts [list_to_map [("key", "FFmpegExtractAudio");
                                  ("preferredcodec", "mp3");
                                  ("preferredquality", "192")]])
  /\ audio !! "merge_output_format" = None
  /\ video !! "format"
     = Some (VStr "bestvideo[ext=mp4]+bestaudio[ext=m4a]/best[ext=mp4]/best")
  /\ video !! "merge_output_format" = Some (VStr "mp4")
  /\ video !! "postprocessors" = None
  /\ (forall w' save_dir' as_mp3,
        delete "outtmpl" (ydl_opts w' save_dir' as_mp3)
        = delete "outtmpl" (ydl_opts w save_dir as_mp3))
  /\ (forall url as_mp3,
        library_calls (worker_effects w (Job url save_dir as_mp3))
        = match import_yt_dlp w with
          | None => [(ydl_opts w save_dir as_mp3, url)]
          | Some _ => []
          end).
Proof.
  repeat split.
  - intros w' save_dir' [|]; reflexivity.
  - intros url as_mp3.
    unfold worker_effects, worker, _do_download, try_finally, try_except.
    unfold cleanup, report_error, download.
    unfold do_import, run_extract, info_get, os_startfile, exec, raise.
    unfold mbind, mret, M_bind, M_ret. simpl.
    destruct (import_yt_dlp w); [reflexivity|].
    destruct (extract_info w _ url) as [evs r].
    rewrite !callbacks_frame.
    destruct r as [e|[info|]]; simpl.
    + by destruct (exn_is_Exception e).
    + by destruct (os_path_exists w _).
    + reflexivity.
Qed.

Section Toggle.

Lemma toggle_fields s :
  threads (_toggle s) = threads s
  /\ worker_thread (_toggle s) = worker_thread s
  /\ is_downloading (_toggle s) = is_downloading s
  /\ as_mp3_var (_toggle s) = negb (as_mp3_var s).
Proof. by repeat split. Qed.

Lemma toggles_fields n s :
  threads (Nat.iter n _toggle s) = threads s
  /\ worker_thread (Nat.iter n _toggle s) = worker_thread s
  /\ as_mp3_var (Nat.iter n _toggle s) = Nat.iter n negb (as_mp3_var s).
Proof.
  induction n as [|n (IHt & IHw & IHv)]; [done|].
  rewrite !Nat.iter_succ.
  destruct (toggle_fields (Nat.iter n _toggle s)) as (Ht & Hw & _ & Hv).
  by rewrite Ht, Hw, Hv, IHt, IHw, IHv.
Qed.

End Toggle.

(** C7. A submission that starts a job reads the switch once: the thread is
    created with the value the switch has at that moment.  Pressing the
    switch any number of times afterwards changes the variable of the
    switch but neither the arguments of the thread nor what the worker does
    for them: in the state without and in the state with the later presses,
    the worker adds the same effects (lines put, message boxes, library
    calls with their options, files opened). *)
Theorem toggle_after_submission_is_inert (w : world) (s : gui) (n : nat) :
  is_downloading s = false ->
  let s1 := _on_run_clicked w s in
  is_downloading s1 = true ->
  let t := Job (PyStr.strip (url_var s)) (PyStr.strip (save_dir_var s))
               (as_mp3_var s) in
  let s2 := Nat.iter n _toggle s1 in
  threads s1 = threads s ++ [t]
  /\ worker_thread s1 = Some t
  /\ threads s2 = threads s1
  /\ worker_thread s2 = Some t
  /\ as_mp3_var s2 = Nat.iter n negb (as_mp3_var s)
  /\ forall w', adds (worker_effects w' t) s1 (worker w' t s1)
                /\ adds (worker_effects w' t) s2 (worker w' t s2).
Proof.
  intros Hidle s1 Hrun t s2.
  assert (s1 = start_download (job_url t) (job_save_dir t) s) as Hs1.
  { subst s1. rewrite (run_clicked_idle w s Hidle) in *. cbv zeta in *.
    repeat case_match; try reflexivity; simpl in Hrun; congruence. }
  destruct (toggles_fields n s1) as (Ht & Hw & Hv). fold s2 in Ht, Hw, Hv.
  assert (worker_thread s1 = Some t) as Hw1 by (by rewrite Hs1).
  repeat split; try apply worker_adds.
  - by rewrite Hs1.
  - done.
  - done.
  - congruence.
  - rewrite Hv. by rewrite Hs1.
Qed.

Lemma toggle_after_submission_is_inert_witness :
  let s1 := _on_run_clicked Sample.w_ok Sample.filled in
  let s2 := Nat.iter 3 _toggle s1 in
  threads s2 = [Job Sample.url Sample.dir true]
  /\ as_mp3_var s2 = false.
Proof.
  pose proof (toggle_after_submission_is_inert Sample.w_ok Sample.filled 3
                eq_refl eq_refl) as (H1 & _ & H3 & _ & H5 & _).
  split; [exact (eq_trans H3 H1) | exact H5].
Defined.

(** C9. A cancel request clears the flag and puts one line on the queue,
    and nothing else.  The worker does not look at the flag: for every job
    and world it adds the same effects (lines put, message boxes, library
    calls, files opened) whether it runs in a state or in that state after
    a cancel request, and the two final states differ in nothing but the
    line of the cancel request in the queue. *)
Theorem cancel_does_not_reach_worker (w : world) (t : job) (s : gui) :
  let c := _on_cancel_clicked s in
  c = set_log_queue (log_queue s ++ [cancel_message]) (set_is_downloading false s)
  /\ adds (worker_effects w t) s (worker w t s)
  /\ adds (worker_effects w t) c (worker w t c)
  /\ log_queue (worker w t s) = log_queue s ++ lines_put (worker_effects w t)
  /\ log_queue (worker w t c)
     = log_queue s ++ [cancel_message] ++ lines_put (worker_effects w t)
  /\ set_log_queue [] (worker w t c) = set_log_queue [] (worker w t s).
Proof.
  repeat split; try apply worker_adds.
  - rewrite worker_frame. simpl. by rewrite <- app_assoc.
  - by rewrite !worker_frame.
Qed.

(* ===================================================================== *)
(** * The job lifecycle *)
(* ===================================================================== *)

Section Lifecycle.

(** In the idle state a submission either shows a message box or starts
    the download, and it starts it exactly when it is valid. *)
Lemma run_clicked_outcome w s :
  is_downloading s = false ->
  (exists d, _on_run_clicked w s = messagebox d s /\ ~ submission_valid w s)
  \/ (_on_run_clicked w s
        = start_download (PyStr.strip (url_var s))
                         (PyStr.strip (save_dir_var s)) s
      /\ submission_valid w s).
Proof.
  intros Hidle. rewrite (run_clicked_idle w s Hidle). cbv zeta.
  unfold submission_valid.
  destruct (PyStr.truthy (PyStr.strip (url_var s))) eqn:Hu; simpl.
  2:{ left. eexists; split; [done|]. apply truthy_false in Hu. tauto. }
  destruct (PyStr.truthy (PyStr.strip (save_dir_var s))) eqn:Hd; simpl.
  2:{ left. eexists; split; [done|]. apply truthy_false in Hd. tauto. }
  destruct (os_path_isdir w _) eqn:Hdir; simpl.
  2:{ left. eexists; split; [done|]. intros (_ & _ & ? & _). congruence. }
  destruct (import_yt_dlp w) eqn:Himp.
  { left. eexists; split; [done|]. intros (_ & _ & _ & ? & _). congruence. }
  destruct (which_ffmpeg w) eqn:Hff.
  2:{ left. eexists; split; [done|]. tauto. }
  right. apply truthy_true in Hu, Hd. by repeat split.
Qed.

(** Executed without interruption, the statements of a worker do what
    [_do_download] does. *)
Lemma script_runs_as_worker w t s :
  foldl (fun s st => perform st s) s (script w t) = worker w t s.
Proof.
  unfold worker, _do_download, try_finally, try_except.
  unfold cleanup, report_error, download.
  unfold do_import, run_extract, info_get, os_startfile, exec, raise.
  unfold mbind, mret, M_bind, M_ret.
  destruct t as [url save_dir as_mp3]; simpl.
  destruct (import_yt_dlp w) as [msg|]; simpl; [reflexivity|].
  destruct (extract_info w (ydl_opts w save_dir as_mp3) url) as [evs r].
  rewrite callbacks_frame, foldl_app. simpl.
  assert (forall l s0,
    foldl (fun s st => perform st s) s0 (put_line <$> l)
    = set_log_queue (log_queue s0 ++ l) s0) as Hputs.
  { induction l as [|x l IH]; intros s0; simpl.
    - by rewrite set_log_queue_id.
    - rewrite IH. destruct s0. unfold _log, set_log_queue; simpl.
      by rewrite <- app_assoc. }
  rewrite foldl_app, Hputs.
  destruct r as [e|[info|]]; simpl.
  - by destruct (exn_is_Exception e).
  - by destruct (os_path_exists w _).
  - reflexivity.
Qed.

(** A statement of a worker sets the flag never, and clears it only when it
    is [clear_flag]; it leaves the thread records alone. *)
Lemma perform_flag st s :
  threads (perform st s) = threads s
  /\ (is_downloading (perform st s) <> is_downloading s ->
      st = clear_flag /\ is_downloading (perform st s) = false).
Proof. destruct st; simpl; split; try done. Qed.

End Lifecycle.

(** C1, as stated, fails: the flag goes back to idle on the cancel request
    itself, not when the worker exits.  After a valid submission and a press
    of the cancel button the flag is clear while the thread of the job is
    still live. *)
Lemma cancel_clears_flag_while_worker_runs :
  let s1 := run [(Sample.w_ok, TypeUrl Sample.url); (Sample.w_ok, ClickRun)]
                (__init__ Sample.w_ok) in
  let s2 := step Sample.w_ok ClickCancel s1 in
  is_downloading s1 = true
  /\ threads s1 = [Job Sample.url Sample.dir true]
  /\ is_downloading s2 = false
  /\ threads s2 = [Job Sample.url Sample.dir true].
Proof. repeat split. Qed.

(** In that state only the disabled run button stands between the user and
    a second thread: the handler itself would start one. *)
Remark second_thread_prevented_by_button :
  let s2 := run [(Sample.w_ok, TypeUrl Sample.url); (Sample.w_ok, ClickRun);
                 (Sample.w_ok, ClickCancel)] (__init__ Sample.w_ok) in
  step Sample.w_ok ClickRun s2 = s2
  /\ length (threads (_on_run_clicked Sample.w_ok s2)) = 2.
Proof. split; vm_compute; reflexivity. Qed.

(** While a worker is between its lines 338 and 340 the run button is
    enabled again although the thread has not ended: a press in that gap
    starts a second thread beside the first, and the first then disables
    the cancel button of the second job. *)
Remark second_thread_in_cleanup_gap :
  let a := app_run ([(Sample.w_ok, interface ClickRun)]
                    ++ replicate 6 (Sample.w_fails, thread_runs 0)
                    ++ [(Sample.w_ok, interface ClickRun)])
                   (App Sample.filled []) in
  let a' := app_step Sample.w_ok (thread_runs 0) a in
  todo a = [Some [disable_cancel; put_line "待機中。別のURLで続けられます。"]]
  /\ length (threads (self a)) = 2
  /\ is_downloading (self a') = true
  /\ cancel_btn (self a') = disabled.
Proof. vm_compute. repeat split. Qed.

(** C1, amended. Whatever the state of the application and whatever happens
    next, an event of the interface or the next statement of a worker
    thread:
    - a press of the run button while the flag is set does nothing, and
      neither does the handler itself: no thread is started;
    - with the flag clear and the run button enabled, a press that passes
      all checks sets the flag and starts one thread on the job of the form;
      and the flag goes from clear to set in no other way;
    - a press of the enabled cancel button clears the flag at once, with the
      threads as they were; the statement of line 337 of a worker clears it
      too, the thread still being live; and the flag goes from set to clear
      in no other way. *)
Theorem job_state_transitions
    (w : world) (oc : occurrence) (a : app) :
  let s := self a in
  let s' := self (app_step w oc a) in
  let form_job := Job (PyStr.strip (url_var s)) (PyStr.strip (save_dir_var s))
                      (as_mp3_var s) in
  (is_downloading s = true ->
   _on_run_clicked w s = s /\ self (app_step w (interface ClickRun) a) = s)
  /\ (is_downloading s = false -> run_btn s = normal -> submission_valid w s ->
      let s1 := self (app_step w (interface ClickRun) a) in
      is_downloading s1 = true /\ threads s1 = threads s ++ [form_job])
  /\ (is_downloading s = false -> is_downloading s' = true ->
      oc = interface ClickRun /\ run_btn s = normal /\ submission_valid w s
      /\ threads s' = threads s ++ [form_job])
  /\ (cancel_btn s = normal ->
      let s1 := self (app_step w (interface ClickCancel) a) in
      is_downloading s1 = false /\ threads s1 = threads s
      /\ log_queue s1 = log_queue s ++ [cancel_message])
  /\ (forall i t rest,
        threads s !! i = Some t -> remaining w t i a = clear_flag :: rest ->
        let s1 := self (app_step w (thread_runs i) a) in
        is_downloading s1 = false /\ threads s1 = threads s)
  /\ (is_downloading s = true -> is_downloading s' = false ->
      (oc = interface ClickCancel /\ cancel_btn s = normal
       /\ threads s' = threads s)
      \/ (exists i t rest,
            oc = thread_runs i /\ threads s !! i = Some t
            /\ remaining w t i a = clear_flag :: rest
            /\ threads s' = threads s)).
Proof.
  destruct a as [s td]. cbv zeta. cbn [self].
  split; [|split; [|split; [|split; [|split]]]].
  - intros Hrun. split; [by apply run_clicked_running|].
    cbn. destruct (run_btn s); simpl; [|done].
    by apply run_clicked_running.
  - intros Hidle Hbtn Hvalid. cbn. rewrite Hbtn. simpl.
    destruct (run_clicked_outcome w s Hidle) as [(d & _ & Hno)|(-> & _)];
      [done|]. by split.
  - intros Hidle Hset.
    destruct oc as [ev|i]; cbn in Hset.
    + destruct ev; cbn in Hset; try congruence.
      * unfold _paste_from_clipboard in Hset.
        destruct (clipboard_get w); simpl in Hset; congruence.
      * unfold _choose_dir in Hset.
        destruct (PyStr.truthy _); simpl in Hset; congruence.
      * cbn. destruct (run_btn s) eqn:Hbtn; simpl in *; [|congruence].
        destruct (run_clicked_outcome w s Hidle) as [(d & Hd & _)|(Hst & Hv)].
        -- rewrite Hd in Hset. simpl in Hset. congruence.
        -- rewrite Hst. split; [done|split; [done|split; [done|reflexivity]]].
      * destruct (cancel_btn s); simpl in Hset; congruence.
      * rewrite poll_eq in Hset. simpl in Hset. congruence.
    + unfold thread_step in Hset. cbn [self] in Hset.
      destruct (threads s !! i) as [t|]; [|simpl in Hset; congruence].
      destruct (remaining w t i _) as [|st rest]; simpl in Hset;
        [congruence|].
      destruct (perform_flag st s) as [_ Hflag].
      destruct Hflag as [_ Hfalse]; congruence.
  - intros Hbtn. cbn. rewrite Hbtn. simpl. by repeat split.
  - intros i t rest Hi Hrest. cbn. unfold thread_step. cbn [self].
    rewrite Hi, Hrest. simpl. by split.
  - intros Hrun Hclear.
    destruct oc as [ev|i]; cbn in Hclear.
    + destruct ev; cbn in Hclear; try congruence.
      * unfold _paste_from_clipboard in Hclear.
        destruct (clipboard_get w); simpl in Hclear; congruence.
      * unfold _choose_dir in Hclear.
        destruct (PyStr.truthy _); simpl in Hclear; congruence.
      * destruct (run_btn s); simpl in Hclear; [|congruence].
        rewrite run_clicked_running in Hclear by done. congruence.
      * left. cbn.
        destruct (cancel_btn s); simpl in *; [by repeat split | congruence].
      * rewrite poll_eq in Hclear. simpl in Hclear. congruence.
    + right. cbn. unfold thread_step in *. cbn [self] in *.
      destruct (threads s !! i) as [t|] eqn:Hi; [|simpl in Hclear; congruence].
      destruct (remaining w t i _) as [|st rest] eqn:Hrest; simpl in Hclear;
        [congruence|].
      destruct (perform_flag st s) as [Hthreads Hflag].
      destruct Hflag as [-> _]; [congruence|].
      exists i, t, rest. by repeat split.
Qed.

(* ===================================================================== *)
(** * Further properties of the worker *)
(* ===================================================================== *)

(** Unfolds the blocks of [_do_download] down to state functions. *)
Ltac worker_unfold :=
  unfold worker_effects, effects_from_blank, worker, _do_download,
    try_finally, try_except, cleanup, report_error, download, do_import,
    run_extract, info_get, os_startfile, exec, raise, mbind, mret, M_bind,
    M_ret.

(** X1. When the library returns metadata the worker shows no message box
    and opens exactly one thing: the file [title [id].ext] under the
    directory when it exists, else the directory, with [download] and [id]
    standing in for a missing title or identifier and the extension chosen
    by the format; it puts the lines of the callbacks, the completion line
    and the idle line, in this order, and ends without an exception. *)
Theorem worker_success_opens_one_target
    (w : world) (t : job) (evs : list tool_event) (info : gmap string string) :
  import_yt_dlp w = None ->
  extract_info w (ydl_opts w (job_save_dir t) (job_as_mp3 t)) (job_url t)
    = (evs, inr (Some info)) ->
  let base := default "download" (info !! "title") +:+ " [" +:+
              default "id" (info !! "id") +:+ "]." +:+
              (if job_as_mp3 t then "mp3" else "mp4") in
  let saved_path := os_path_join w (job_save_dir t) base in
  let found := os_path_exists w saved_path in
  let e := worker_effects w t in
  boxes_shown e = []
  /\ files_opened e = [if found then saved_path else job_save_dir t]
  /\ library_calls e
     = [(ydl_opts w (job_save_dir t) (job_as_mp3 t), job_url t)]
  /\ lines_put e
     = (evs ≫= callback_lines w)
       ++ [if found then "完了: " +:+ saved_path
           else "完了（注意：ファイル名が異なる可能性あり）。" +:+
                "保存先フォルダを開きます。";
           "待機中。別のURLで続けられます。"]
  /\ forall s,
       fst (_do_download w (job_url t) (job_save_dir t) (job_as_mp3 t) s)
       = inr tt.
Proof.
  intros Himp Hext. destruct t as [url save_dir as_mp3]. simpl in *.
  worker_unfold. simpl. rewrite Himp, Hext. simpl.
  rewrite !callbacks_frame. simpl.
  destruct (os_path_exists w _); simpl; repeat split;
    by rewrite <- app_assoc.
Qed.

Lemma worker_success_opens_one_target_witness :
  files_opened (worker_effects Sample.w_ok Sample2.job)
    = ["/tmp/out/Clip [abc].mp3"]
  /\ boxes_shown (worker_effects Sample.w_ok Sample2.job) = [].
Proof.
  pose proof (worker_success_opens_one_target Sample.w_ok Sample2.job _ _
                eq_refl eq_refl) as (H1 & H2 & _).
  split; [exact H2 | exact H1].
Defined.

(** X2. A failure that derives from [Exception] is reported once and swallowed:
    whether the import fails (then the library is never called), the
    library raises, or it returns [None] (on which [info.get] fails), the
    worker puts the error line and the idle line, shows one error box with
    the text of the exception, opens nothing, and ends without an
    exception. *)
Theorem worker_failure_reported_once (w : world) (t : job) :
  let e := worker_effects w t in
  let opts := ydl_opts w (job_save_dir t) (job_as_mp3 t) in
  let reported msg evs :=
    boxes_shown e
    = [showerror "エラー" ("ダウンロードでエラーが発生しました:" +:+ nl +:+ msg)]
    /\ files_opened e = []
    /\ lines_put e
       = (evs ≫= callback_lines w)
         ++ ["エラー: " +:+ msg; "待機中。別のURLで続けられます。"]
    /\ forall s,
         fst (_do_download w (job_url t) (job_save_dir t) (job_as_mp3 t) s)
         = inr tt in
  (forall msg, import_yt_dlp w = Some msg ->
     reported msg [] /\ library_calls e = [])
  /\ (forall evs x, import_yt_dlp w = None ->
        extract_info w opts (job_url t) = (evs, inl x) ->
        exn_is_Exception x = true ->
        reported (exn_str x) evs /\ library_calls e = [(opts, job_url t)])
  /\ (forall evs, import_yt_dlp w = None ->
        extract_info w opts (job_url t) = (evs, inr None) ->
        reported "'NoneType' object has no attribute 'get'" evs
        /\ library_calls e = [(opts, job_url t)]).
Proof.
  destruct t as [url save_dir as_mp3]. cbv zeta. simpl job_url.
  simpl job_save_dir. simpl job_as_mp3.
  split; [|split].
  - intros msg Himp. worker_unfold. simpl. rewrite Himp. simpl.
    repeat split.
  - intros evs x Himp Hext Hx. worker_unfold. simpl.
    rewrite Himp, Hext. simpl. rewrite !callbacks_frame, Hx. simpl.
    repeat split; by rewrite <- app_assoc.
  - intros evs Himp Hext. worker_unfold. simpl.
    rewrite Himp, Hext. simpl. rewrite !callbacks_frame. simpl.
    repeat split; by rewrite <- app_assoc.
Qed.

(** X3. An exception of the library that does not derive from [Exception] is
    not reported: no error line, no message box, nothing opened; the
    [finally] block still puts the idle line, and the exception leaves
    [_do_download]. *)
Theorem worker_uncaught_exception_passes
    (w : world) (t : job) (evs : list tool_event) (x : exn) :
  import_yt_dlp w = None ->
  extract_info w (ydl_opts w (job_save_dir t) (job_as_mp3 t)) (job_url t)
    = (evs, inl x) ->
  exn_is_Exception x = false ->
  let e := worker_effects w t in
  boxes_shown e = [] /\ files_opened e = []
  /\ lines_put e
     = (evs ≫= callback_lines w) ++ ["待機中。別のURLで続けられます。"]
  /\ forall s,
       fst (_do_download w (job_url t) (job_save_dir t) (job_as_mp3 t) s)
       = inl x.
Proof.
  intros Himp Hext Hx. destruct t as [url save_dir as_mp3]. simpl in *.
  worker_unfold. simpl. rewrite Himp, Hext. simpl.
  rewrite !callbacks_frame, Hx. simpl. repeat split.
Qed.

Lemma worker_uncaught_exception_passes_witness :
  boxes_shown (worker_effects Sample2.w_interrupt Sample2.job) = []
  /\ lines_put (worker_effects Sample2.w_interrupt Sample2.job)
     = ["[download] 10%"; "待機中。別のURLで続けられます。"].
Proof.
  pose proof (worker_uncaught_exception_passes Sample2.w_interrupt Sample2.job
                _ _ eq_refl eq_refl eq_refl) as (H1 & _ & H3 & _).
  split; [exact H1 | exact H3].
Defined.

(** X4. In every world a run of the worker calls the library at most once, shows
    at most one message box, opens at most one thing, never both shows a box
    and opens something, and puts the idle line last. *)
Theorem worker_effects_bounded (w : world) (t : job) :
  let e := worker_effects w t in
  length (library_calls e) <= 1
  /\ length (boxes_shown e) <= 1
  /\ length (files_opened e) <= 1
  /\ (boxes_shown e = [] \/ files_opened e = [])
  /\ last (lines_put e) = Some "待機中。別のURLで続けられます。".
Proof.
  destruct t as [url save_dir as_mp3]. worker_unfold. simpl.
  destruct (import_yt_dlp w) as [msg|]; simpl.
  { repeat split; auto. }
  destruct (extract_info w _ url) as [evs r].
  rewrite !callbacks_frame.
  destruct r as [x|[info|]]; simpl.
  - destruct (exn_is_Exception x); simpl; rewrite ?last_snoc;
      repeat split; auto.
  - destruct (os_path_exists w _); simpl; rewrite ?last_snoc;
      repeat split; auto.
  - rewrite ?last_snoc. repeat split; auto.
Qed.

(* ===================================================================== *)
(** * Further properties of the event loop *)
(* ===================================================================== *)

Section Threads.

Lemma pad_length n td : n <= length (pad n td).
Proof. unfold pad. rewrite length_app, length_replicate. lia. Qed.

Lemma pad_lookup n td i :
  mjoin (pad n td !! i) = mjoin (td !! i).
Proof.
  unfold pad. destruct (decide (i < length td)) as [Hlt|Hge].
  - by rewrite lookup_app_l.
  - rewrite lookup_app_r by lia. rewrite (lookup_ge_None_2 td) by lia.
    destruct (replicate _ _ !! _) as [x|] eqn:Hx; [|done].
    apply lookup_replicate in Hx as [-> _]. done.
Qed.

Lemma remaining_eq w t i a :
  remaining w t i a = default (script w t) (mjoin (todo a !! i)).
Proof. unfold remaining. by destruct (todo a !! i) as [[rest|]|]. Qed.

Lemma perform_threads st s : threads (perform st s) = threads s.
Proof. by destruct st. Qed.

Lemma app_run_cons w oc tr a :
  app_run ((w, oc) :: tr) a = app_run tr (app_step w oc a).
Proof. reflexivity. Qed.

Lemma thread_step_next w i t st rest a :
  threads (self a) !! i = Some t ->
  remaining w t i a = st :: rest ->
  thread_step w i a
  = App (perform st (self a)) (<[i := Some rest]> (pad (S i) (todo a))).
Proof. intros Hi Hr. unfold thread_step. by rewrite Hi, Hr. Qed.

Lemma thread_step_exit w i t a :
  threads (self a) !! i = Some t ->
  remaining w t i a = [] ->
  thread_step w i a
  = App (set_threads (delete i (threads (self a))) (self a))
        (delete i (todo a)).
Proof. intros Hi Hr. unfold thread_step. by rewrite Hi, Hr. Qed.

Lemma todo_after_step i rest td :
  mjoin (<[i := Some rest]> (pad (S i) td) !! i) = Some rest.
Proof.
  rewrite list_lookup_insert_eq; [done|].
  pose proof (pad_length (S i) td). lia.
Qed.

(** A thread that has begun and is left to run alone executes what it has
    still to execute and exits. *)
Lemma thread_finishes w i t rest : forall a,
  threads (self a) !! i = Some t ->
  mjoin (todo a !! i) = Some rest ->
  self (app_run (replicate (S (length rest)) (w, thread_runs i)) a)
  = set_threads (delete i (threads (self a)))
                (foldl (fun s st => perform st s) (self a) rest).
Proof.
  induction rest as [|st rest IH]; intros a Hi Hrest.
  - cbn [length replicate]. rewrite app_run_cons. cbn [app_step app_run foldl].
    rewrite (thread_step_exit w i t); [done|done|].
    by rewrite remaining_eq, Hrest.
  - cbn [length replicate]. rewrite app_run_cons. cbn [app_step].
    rewrite (thread_step_next w i t st rest); [|done|].
    2:{ by rewrite remaining_eq, Hrest. }
    rewrite IH.
    + cbn [self foldl]. by rewrite perform_threads.
    + cbn [self]. by rewrite perform_threads.
    + cbn [todo]. apply todo_after_step.
Qed.

End Threads.

(** X5. A worker thread that executes all its statements with nothing happening
    in between leaves [self] as [_do_download] run in one piece does, and
    is then gone from the live threads; the interleaved model extends the
    function. *)
Theorem uninterrupted_thread_is_worker
    (w : world) (i : nat) (t : job) (a : app) :
  threads (self a) !! i = Some t ->
  mjoin (todo a !! i) = None ->
  self (app_run (replicate (S (length (script w t))) (w, thread_runs i)) a)
  = set_threads (delete i (threads (self a)))
      (snd (_do_download w (job_url t) (job_save_dir t) (job_as_mp3 t)
                         (self a))).
Proof.
  intros Hi Hfresh.
  assert (exists st rest, script w t = st :: rest) as (st & rest & Hs).
  { unfold script. destruct t as [url save_dir as_mp3].
    destruct (import_yt_dlp w); [by eexists _, _|].
    destruct (extract_info w _ url) as [evs r]. by eexists _, _. }
  rewrite Hs. cbn [length replicate]. rewrite app_run_cons. cbn [app_step].
  rewrite (thread_step_next w i t st rest); [|done|].
  2:{ by rewrite remaining_eq, Hfresh. }
  rewrite (thread_finishes w i t rest).
  - cbn [self]. rewrite perform_threads.
    change (foldl (fun s st0 => perform st0 s) (perform st (self a)) rest)
      with (foldl (fun s st0 => perform st0 s) (self a) (st :: rest)).
    rewrite <- Hs, script_runs_as_worker. reflexivity.
  - cbn [self]. by rewrite perform_threads.
  - cbn [todo]. apply todo_after_step.
Qed.

Lemma uninterrupted_thread_is_worker_witness :
  let a := app_run (replicate 11 (Sample.w_ok, thread_runs 0))
                   (App Sample2.started []) in
  threads (self a) = [] /\ is_downloading (self a) = false
  /\ startfiles (self a) = ["/tmp/out/Clip [abc].mp3"].
Proof.
  pose proof (uninterrupted_thread_is_worker Sample.w_ok 0 Sample2.job
                (App Sample2.started []) eq_refl eq_refl) as H.
  cbv zeta.
  change (replicate 11 (Sample.w_ok, thread_runs 0))
    with (replicate (S (length (script Sample.w_ok Sample2.job)))
                    (Sample.w_ok, thread_runs 0)).
  rewrite H. vm_compute. repeat split.
Defined.

Section AppendOnly.

Lemma run_clicked_cases w s :
  _on_run_clicked w s = s
  \/ (exists d, _on_run_clicked w s = messagebox d s)
  \/ _on_run_clicked w s
     = start_download (PyStr.strip (url_var s)) (PyStr.strip (save_dir_var s)) s.
Proof.
  destruct (is_downloading s) eqn:Hd.
  - left. by apply run_clicked_running.
  - right. destruct (run_clicked_outcome w s Hd) as [(d & H & _)|[H _]]; eauto.
Qed.

(** One occurrence leaves the log pane as it was or, for a poll, adds the
    queued lines to it; and it only ever adds lines at the back of what is
    shown and queued. *)
Lemma app_step_log w oc a :
  log_text (self a) `prefix_of` log_text (self (app_step w oc a))
  /\ channel (self a) `prefix_of` channel (self (app_step w oc a)).
Proof.
  destruct a as [s td]. destruct oc as [ev|i]; cbn [app_step self].
  - destruct ev; cbn [step].
    + done.
    + done.
    + unfold _paste_from_clipboard. by destruct (clipboard_get w).
    + unfold _choose_dir. by destruct (PyStr.truthy _).
    + split; [done|]. unfold _toggle, _on_toggle_changed.
      rewrite channel_log. by apply prefix_app_r.
    + destruct (run_btn s); cbn [press]; [|done].
      destruct (run_clicked_cases w s) as [->|[(d & ->)| ->]]; [done|done|].
      split; [done|]. unfold channel; simpl.
      rewrite fmap_app, app_assoc. by apply prefix_app_r.
    + destruct (cancel_btn s); cbn [press]; [|done].
      split; [done|]. unfold channel; simpl.
      rewrite fmap_app, app_assoc. by apply prefix_app_r.
    + rewrite channel_poll. split; [|done].
      rewrite poll_eq. simpl. unfold channel. by apply prefix_app_r.
  - unfold thread_step. cbn [self todo].
    destruct (threads s !! i) as [t|]; [|done].
    destruct (remaining w t i _) as [|st rest]; cbn [self]; [done|].
    destruct st; simpl; try done.
    split; [done|]. unfold channel; simpl.
    rewrite fmap_app, app_assoc. by apply prefix_app_r.
Qed.

End AppendOnly.

(** X6. Nothing the application does removes or reorders a log line: over any
    run, with interface events and worker statements interleaved in any
    way, the lines in the log pane stay where they are, and so do the lines
    shown followed by the lines still queued; lines are only added at the
    back. *)
Theorem log_is_append_only (tr : list (world * occurrence)) (a : app) :
  log_text (self a) `prefix_of` log_text (self (app_run tr a))
  /\ channel (self a) `prefix_of` channel (self (app_run tr a)).
Proof.
  revert a. induction tr as [|[w oc] tr IH]; intros a; [done|].
  rewrite app_run_cons.
  destruct (app_step_log w oc a) as [H1 H2].
  destruct (IH (app_step w oc a)) as [H3 H4].
  split; etrans; eauto.
Qed.

Section Interleaving.

Lemma harmless_ahead body :
  Forall (fun st => harmless st = true) body ->
  ahead_337 body = false /\ ahead_338 body = false.
Proof.
  induction 1 as [|st body Hst _ [IH1 IH2]]; [done|].
  unfold ahead_337, ahead_338 in *. simpl. rewrite IH1, IH2.
  by destruct st.
Qed.

Lemma wf_step st rest :
  well_formed (st :: rest) ->
  well_formed rest
  /\ match st with
     | clear_flag => ahead_338 rest = true /\ ahead_337 rest = false
     | enable_run | disable_cancel =>
         ahead_338 rest = false /\ ahead_337 rest = false
     | _ => True
     end.
Proof.
  intros (body & k & Hb & Heq & Hor). destruct body as [|b body].
  - unfold finally_block in Heq. simpl in Heq.
    destruct k as [|[|[|[|k]]]]; simpl in Heq; rewrite ?drop_nil in Heq;
      try discriminate; injection Heq as -> ->.
    + split; [by exists [], 1; auto|done].
    + split; [by exists [], 2; auto|done].
    + split; [by exists [], 3; auto|done].
    + split; [by exists [], 4; auto|done].
  - destruct Hor as [?| ->]; [done|]. simpl in Heq. injection Heq as -> ->.
    inversion Hb as [|? ? Hst Hbody]; subst.
    split; [by exists body, 0; auto|]. by destruct b.
Qed.

Lemma wf_ahead rest :
  well_formed rest -> ahead_337 rest = true -> ahead_338 rest = true.
Proof.
  intros (body & k & Hb & -> & _). unfold ahead_337, ahead_338.
  rewrite !existsb_app.
  destruct (harmless_ahead body Hb) as [H1 H2].
  unfold ahead_337, ahead_338 in *. rewrite H1, H2. simpl.
  unfold finally_block.
  destruct k as [|[|[|[|k]]]]; simpl; rewrite ?drop_nil; simpl; congruence.
Qed.

Lemma script_shape w t :
  exists body,
    Forall (fun st => harmless st = true) body
    /\ script w t = body ++ finally_block.
Proof.
  assert (forall l : list string,
            Forall (fun st => harmless st = true) (put_line <$> l)) as Hputs.
  { induction l; simpl; by constructor. }
  unfold script. destruct t as [url save_dir as_mp3].
  destruct (import_yt_dlp w) as [msg|].
  { eexists. split; [|reflexivity]. by repeat constructor. }
  destruct (extract_info w _ url) as [evs r].
  eexists. split; [|reflexivity].
  constructor; [done|]. apply Forall_app. split; [apply Hputs|].
  destruct r as [x|[info|]].
  - destruct (exn_is_Exception x); by repeat constructor.
  - destruct (os_path_exists w _); by repeat constructor.
  - by repeat constructor.
Qed.

Lemma script_wf w t :
  well_formed (script w t)
  /\ ahead_337 (script w t) = true /\ ahead_338 (script w t) = true.
Proof.
  destruct (script_shape w t) as (body & Hb & ->).
  split; [by exists body, 0; auto|].
  unfold ahead_337, ahead_338. rewrite !existsb_app. simpl.
  by rewrite !orb_true_r.
Qed.

Lemma slot_next s s' td i rest j :
  slot (App s' (<[i := Some rest]> (pad (S i) td))) j
  = if decide (j = i) then Some rest else slot (App s td) j.
Proof.
  unfold slot. cbn [todo]. destruct (decide (j = i)) as [->|Hne].
  - apply todo_after_step.
  - rewrite list_lookup_insert_ne by done. apply pad_lookup.
Qed.

Lemma slot_delete s s' td i j :
  slot (App s' (delete i td)) j
  = slot (App s td) (if decide (j < i) then j else S j).
Proof.
  unfold slot. cbn [todo]. destruct (decide (j < i)).
  - by rewrite list_lookup_delete_lt.
  - by rewrite list_lookup_delete_ge by lia.
Qed.

Lemma slot_ge s td j : length td <= j -> slot (App s td) j = None.
Proof. intros H. unfold slot. cbn [todo]. by rewrite lookup_ge_None_2. Qed.

(** What a thread has left is well formed, and tells where it stands. *)
Lemma remaining_facts w t i a R :
  (forall i rest, slot a i = Some rest -> well_formed rest) ->
  remaining w t i a = R ->
  well_formed R
  /\ (before_338 a i <-> ahead_338 R = true)
  /\ (before_337 a i <-> ahead_337 R = true).
Proof.
  intros Hwf HR. rewrite remaining_eq in HR.
  unfold before_338, before_337. fold (slot a i) in HR.
  destruct (slot a i) as [r|] eqn:Hs; simpl in HR; subst R.
  - split; [by eapply Hwf|done].
  - destruct (script_wf w t) as (H1 & H2 & H3). by rewrite H2, H3.
Qed.

End Interleaving.

Section Invariant.

Lemma inv_start w : app_inv (app_start w).
Proof.
  unfold app_inv, app_start. cbn [self todo].
  assert (threads (__init__ w) = [] /\ is_downloading (__init__ w) = false)
    as [-> ->].
  { unfold __init__. rewrite poll_eq. unfold _build_widgets.
    by repeat case_match. }
  simpl. repeat split; try (intros; lia); try done.
Qed.

(** An occurrence that leaves the threads and the run button alone, and
    the flag too unless it clears it, keeps the invariant. *)
Lemma inv_same s s' td :
  threads s' = threads s -> run_btn s' = run_btn s ->
  is_downloading s' = is_downloading s \/ is_downloading s' = false ->
  app_inv (App s td) -> app_inv (App s' td).
Proof.
  unfold app_inv. cbn [self todo]. intros Ht Hr Hd (I1 & I2 & I3 & I4 & I5 & I6).
  rewrite Ht, Hr. repeat split.
  - exact I1.
  - exact I2.
  - exact I3.
  - exact I4.
  - intros i Hi H8 H7. destruct Hd as [-> | ->]; [by eapply I5|done].
  - intros Hflag. destruct Hd as [Hd|Hd]; [|congruence].
    rewrite Hd in Hflag. by apply I6.
Qed.

Lemma inv_interface w ev a :
  app_inv a -> app_inv (app_step w (interface ev) a).
Proof.
  destruct a as [s td]. intros Hinv. cbn [app_step self todo].
  destruct ev; cbn [step].
  - apply (inv_same s); auto.
  - apply (inv_same s); auto.
  - unfold _paste_from_clipboard.
    destruct (clipboard_get w); [apply (inv_same s); auto|done].
  - unfold _choose_dir.
    destruct (PyStr.truthy _); [apply (inv_same s); auto|done].
  - apply (inv_same s); auto.
  - destruct (run_btn s) eqn:Hbtn; cbn [press]; [|done].
    destruct (is_downloading s) eqn:Hd.
    { by rewrite run_clicked_running. }
    destruct (run_clicked_outcome w s Hd) as [(d & -> & _)|[-> _]].
    { apply (inv_same s); auto. }
    destruct Hinv as (I1 & I2 & I3 & I4 & I5 & I6). cbn [self todo] in *.
    assert (forall i, i < length (threads s) -> ~ before_338 (App s td) i)
      as Hnone.
    { intros i Hi H8. specialize (I4 i Hi H8). congruence. }
    assert (slot (App s td) (length (threads s)) = None) as Hnew
      by (by apply slot_ge).
    unfold app_inv. cbn [self todo].
    change (threads (start_download _ _ s)) with (threads s ++ [Job
      (PyStr.strip (url_var s)) (PyStr.strip (save_dir_var s)) (as_mp3_var s)]).
    change (run_btn (start_download _ _ s)) with disabled.
    change (is_downloading (start_download _ _ s)) with true.
    rewrite length_app. simpl.
    repeat split.
    + lia.
    + exact I2.
    + intros i j Hi Hj H8i H8j.
      destruct (decide (i < length (threads s))) as [Hlt|Hge];
        [by destruct (Hnone i Hlt)|].
      destruct (decide (j < length (threads s))) as [Hlt'|Hge'];
        [by destruct (Hnone j Hlt')|]. lia.
    + intros i Hi H8 H7. exfalso. apply H7.
      destruct (decide (i < length (threads s))) as [Hlt|Hge];
        [by destruct (Hnone i Hlt)|].
      assert (i = length (threads s)) as -> by lia.
      unfold before_337.
      change (slot (App (start_download _ _ s) td) (length (threads s)))
        with (slot (App s td) (length (threads s))).
      by rewrite Hnew.
    + intros _. exists (length (threads s)). split; [lia|].
      unfold before_337.
      change (slot (App (start_download _ _ s) td) (length (threads s)))
        with (slot (App s td) (length (threads s))).
      by rewrite Hnew.
  - destruct (cancel_btn s); cbn [press]; [|done].
    apply (inv_same s); auto.
  - rewrite poll_eq. apply (inv_same s); auto.
Qed.

End Invariant.

Section InvariantThreads.

Lemma before_337_dec a i : before_337 a i \/ ~ before_337 a i.
Proof.
  unfold before_337. destruct (slot a i) as [rest|]; [|by left].
  destruct (ahead_337 rest); [by left | by right].
Qed.

(** The invariant after a statement of the [i]-th thread, given what the
    statement does to the flag and the run button. *)
Lemma inv_update s s' td i rest :
  app_inv (App s td) ->
  i < length (threads s) ->
  threads s' = threads s ->
  well_formed rest ->
  (ahead_338 rest = true -> before_338 (App s td) i) ->
  (run_btn s' = run_btn s
   \/ (before_338 (App s td) i /\ ahead_338 rest = false)) ->
  (is_downloading s' = is_downloading s \/ is_downloading s' = false) ->
  (before_337 (App s td) i -> ahead_337 rest = false ->
   is_downloading s' = false) ->
  app_inv (App s' (<[i := Some rest]> (pad (S i) td))).
Proof.
  intros (I1 & I2 & I3 & I4 & I5 & I6) Hi Ht Hwf HA HC HD HE.
  cbn [self todo] in *.
  assert (forall j, before_338 (App s' (<[i := Some rest]> (pad (S i) td))) j
                    -> before_338 (App s td) j) as H8.
  { intros j. unfold before_338 at 1. rewrite (slot_next s).
    destruct (decide (j = i)) as [->|]; [exact HA|done]. }
  assert (forall j, j <> i ->
            (before_337 (App s' (<[i := Some rest]> (pad (S i) td))) j
             <-> before_337 (App s td) j)) as H7.
  { intros j Hj. unfold before_337 at 1. rewrite (slot_next s).
    by destruct (decide (j = i)). }
  unfold app_inv. cbn [self todo]. rewrite Ht.
  split; [|split; [|split; [|split; [|split]]]].
  - rewrite length_insert. unfold pad.
    rewrite length_app, length_replicate. lia.
  - intros j r. rewrite (slot_next s).
    destruct (decide (j = i)); [by intros [= <-]|apply I2].
  - intros j k Hj Hk Hbj Hbk. apply I3; auto.
  - intros j Hj Hbj. destruct HC as [-> | [Hold Hnew]]; [by eapply I4; eauto|].
    exfalso. destruct (decide (j = i)) as [->|Hne].
    + unfold before_338 in Hbj. rewrite (slot_next s) in Hbj.
      rewrite decide_True in Hbj by done. congruence.
    + apply Hne. apply I3; auto.
  - intros j Hj Hbj Hnj. destruct (decide (j = i)) as [->|Hne].
    + destruct (ahead_337 rest) eqn:H337.
      * exfalso. apply Hnj. unfold before_337. rewrite (slot_next s).
        by rewrite decide_True.
      * assert (is_downloading s = false -> is_downloading s' = false) as Hkeep
          by (destruct HD; congruence).
        destruct (before_337_dec (App s td) i) as [Hb|Hb].
        -- by apply HE.
        -- apply Hkeep. eapply I5; eauto.
    + assert (is_downloading s = false) as Hf.
      { eapply I5; eauto. by rewrite <- H7. }
      destruct HD; congruence.
  - intros Hflag.
    assert (is_downloading s = true) as Hold by (destruct HD; congruence).
    destruct (I6 Hold) as (k & Hk & Hbk). exists k. split; [done|].
    destruct (decide (k = i)) as [->|Hne]; [|by rewrite H7].
    unfold before_337. rewrite (slot_next s), decide_True by done.
    destruct (ahead_337 rest) eqn:H337; [done|].
    specialize (HE Hbk eq_refl). congruence.
Qed.

End InvariantThreads.

Section InvariantRuns.

Lemma inv_thread_next w i t st rest s td :
  app_inv (App s td) ->
  threads s !! i = Some t ->
  remaining w t i (App s td) = st :: rest ->
  app_inv (App (perform st s) (<[i := Some rest]> (pad (S i) td))).
Proof.
  intros Hinv Hi HR.
  pose proof Hinv as (_ & I2 & _).
  destruct (remaining_facts w t i _ _ I2 HR) as (Hwf & H8 & H7).
  destruct (wf_step st rest Hwf) as [Hwf' Hst].
  assert (i < length (threads s)) as Hlt by (by eapply lookup_lt_Some).
  apply (inv_update s); try done.
  - apply perform_threads.
  - intros Hr. apply H8. unfold ahead_338 in *. simpl. rewrite Hr.
    apply orb_true_r.
  - destruct st; try (by left).
    right. split; [by apply H8|]. by destruct Hst.
  - destruct st; try (by left). by right.
  - intros Hb Hr. apply H7 in Hb. unfold ahead_337 in *. simpl in Hb.
    rewrite Hr, orb_false_r in Hb. by destruct st.
Qed.

Lemma inv_thread_exit w i t s td :
  app_inv (App s td) ->
  threads s !! i = Some t ->
  remaining w t i (App s td) = [] ->
  app_inv (App (set_threads (delete i (threads s)) s) (delete i td)).
Proof.
  intros (I1 & I2 & I3 & I4 & I5 & I6) Hi HR. cbn [self todo] in *.
  assert (slot (App s td) i = Some []) as Hslot.
  { rewrite remaining_eq in HR. unfold slot. cbn [todo] in *.
    destruct (mjoin (td !! i)) as [r|]; simpl in HR; [by subst|].
    destruct (script_shape w t) as (body & _ & Hs). rewrite Hs in HR.
    by destruct body. }
  assert (i < length (threads s)) as Hlt by (by eapply lookup_lt_Some).
  assert (i < length td) as Hlt'.
  { unfold slot in Hslot. cbn [todo] in Hslot.
    destruct (td !! i) eqn:Htd; [|done]. by eapply lookup_lt_Some. }
  assert (~ before_338 (App s td) i /\ ~ before_337 (App s td) i) as [Hn8 Hn7].
  { unfold before_338, before_337. by rewrite Hslot. }
  set (up := fun j => if decide (j < i) then j else S j).
  assert (forall j, before_338 (App (set_threads (delete i (threads s)) s)
                                    (delete i td)) j
                    <-> before_338 (App s td) (up j)) as H8.
  { intros j. unfold before_338. by rewrite (slot_delete s). }
  assert (forall j, before_337 (App (set_threads (delete i (threads s)) s)
                                    (delete i td)) j
                    <-> before_337 (App s td) (up j)) as H7.
  { intros j. unfold before_337. by rewrite (slot_delete s). }
  assert (forall j, j < length (threads s) - 1 -> up j < length (threads s))
    as Hup.
  { intros j Hj. unfold up. destruct (decide (j < i)); lia. }
  assert (forall j k, up j = up k -> j = k) as Hinj.
  { intros j k. unfold up.
    destruct (decide (j < i)), (decide (k < i)); lia. }
  unfold app_inv. cbn [self todo].
  change (threads (set_threads (delete i (threads s)) s))
    with (delete i (threads s)).
  change (run_btn (set_threads (delete i (threads s)) s)) with (run_btn s).
  change (is_downloading (set_threads (delete i (threads s)) s))
    with (is_downloading s).
  rewrite !length_delete by (by apply lookup_lt_is_Some).
  split; [|split; [|split; [|split; [|split]]]].
  - lia.
  - intros j r. rewrite (slot_delete s). apply I2.
  - intros j k Hj Hk Hbj Hbk. apply Hinj. apply I3; auto; by apply H8.
  - intros j Hj Hbj. apply (I4 (up j)); auto. by apply H8.
  - intros j Hj Hbj Hnj. apply (I5 (up j)); auto; [by apply H8|].
    by rewrite <- H7.
  - intros Hflag. destruct (I6 Hflag) as (k & Hk & Hbk).
    assert (k <> i) as Hne by (intros ->; done).
    exists (if decide (k < i) then k else k - 1).
    assert (up (if decide (k < i) then k else k - 1) = k) as Hk'.
    { unfold up. destruct (decide (k < i)) as [?|?].
      - by rewrite decide_True.
      - rewrite decide_False by lia. lia. }
    split.
    + destruct (decide (k < i)); lia.
    + apply H7. by rewrite Hk'.
Qed.

Lemma inv_step w oc a : app_inv a -> app_inv (app_step w oc a).
Proof.
  intros Hinv. destruct oc as [ev|i]; [by apply inv_interface|].
  destruct a as [s td]. cbn [app_step]. unfold thread_step. cbn [self todo].
  destruct (threads s !! i) as [t|] eqn:Hi; [|done].
  destruct (remaining w t i _) as [|st rest] eqn:HR.
  - by eapply inv_thread_exit.
  - by eapply inv_thread_next.
Qed.

Lemma inv_run tr : forall a, app_inv a -> app_inv (app_run tr a).
Proof.
  induction tr as [|[w oc] tr IH]; intros a Hinv; [done|].
  rewrite app_run_cons. by apply IH, inv_step.
Qed.

End InvariantRuns.

(** X7. Over every run from start-up, with interface events and worker
    statements interleaved in any way: at most one live thread has still to
    execute its line 338, so at most one is downloading while any other is
    in the last two statements of its [finally] block; whenever the run
    button is enabled the flag is clear and no thread is before its line
    338, so every press that is delivered passes the guard of line 210;
    and whenever the flag is set the run button is disabled and some live
    thread has still to execute its line 337. *)
Theorem one_download_at_a_time (w0 : world) (tr : list (world * occurrence)) :
  let a := app_run tr (app_start w0) in
  let s := self a in
  let n := length (threads s) in
  (forall i j, i < n -> j < n -> before_338 a i -> before_338 a j -> i = j)
  /\ (run_btn s = normal ->
      is_downloading s = false /\ forall i, i < n -> ~ before_338 a i)
  /\ (is_downloading s = true ->
      run_btn s = disabled /\ exists i, i < n /\ before_337 a i).
Proof.
  intros a s n.
  pose proof (inv_run tr _ (inv_start w0)) as (I1 & I2 & I3 & I4 & I5 & I6).
  fold a in I1, I2, I3, I4, I5, I6. cbv zeta in *. fold s n in I3, I4, I5, I6.
  assert (forall i, before_337 a i -> before_338 a i) as H78.
  { intros i. unfold before_337, before_338.
    destruct (slot a i) as [rest|] eqn:Hs; [|done].
    apply wf_ahead. by eapply I2. }
  split; [exact I3|]. split.
  - intros Hbtn.
    assert (forall i, i < n -> ~ before_338 a i) as Hnone.
    { intros i Hi Hb. specialize (I4 i Hi Hb). congruence. }
    split; [|exact Hnone].
    destruct (is_downloading s) eqn:Hd; [|done].
    destruct (I6 eq_refl) as (i & Hi & Hb).
    destruct (Hnone i Hi). by apply H78.
  - intros Hflag. destruct (I6 Hflag) as (i & Hi & Hb).
    split; [|by exists i]. apply (I4 i Hi). by apply H78.
Qed.

(* ===================================================================== *)
(** * Further properties of the interface *)
(* ===================================================================== *)

(** X8. The check made when the module is loaded names exactly the tools whose
    absence blocks a submission, the extraction library first: nothing is
    printed when both are there, and in the idle state a submission with a
    URL and an existing directory starts a download exactly when the list of
    missing tools is empty. *)
Theorem startup_check_matches_submission (w : world) :
  startup_missing w
  = (match import_yt_dlp w with Some _ => ["yt-dlp"] | None => [] end)
    ++ (match which_ffmpeg w with None => ["ffmpeg"] | Some _ => [] end)
  /\ (startup_missing w = [] <-> import_yt_dlp w = None /\ which_ffmpeg w <> None)
  /\ (startup_print w = None <-> startup_missing w = [])
  /\ forall s,
       is_downloading s = false ->
       PyStr.strip (url_var s) <> "" ->
       PyStr.strip (save_dir_var s) <> "" ->
       os_path_isdir w (PyStr.strip (save_dir_var s)) = true ->
       (startup_missing w = [] <->
        is_downloading (_on_run_clicked w s) = true
        /\ length (threads (_on_run_clicked w s)) = S (length (threads s))).
Proof.
  unfold startup_print, startup_missing.
  split; [|split; [|split]].
  - by destruct (import_yt_dlp w), (which_ffmpeg w).
  - destruct (import_yt_dlp w), (which_ffmpeg w); simpl; split;
      try done; intros [? ?]; done.
  - by destruct (import_yt_dlp w), (which_ffmpeg w).
  - intros s Hidle Hu Hd Hdir.
    rewrite (run_clicked_idle w s Hidle). cbv zeta.
    apply truthy_true in Hu, Hd. rewrite Hu, Hd, Hdir. simpl.
    destruct (import_yt_dlp w), (which_ffmpeg w); simpl; split; try done;
      try (intros [H _]; simpl in H; congruence).
    intros _. split; [done|]. rewrite length_app. simpl. lia.
Qed.

(** X9. However the surroundings are, the window starts idle: the run button is
    enabled and the cancel button disabled, no thread is live, the format is
    audio, the URL is empty, the ready line is in the log pane with nothing
    queued, and the directory field is empty unless the [Downloads] folder
    of the home directory exists, in which case it holds that folder. *)
Theorem window_starts_idle (w : world) :
  let s := __init__ w in
  is_downloading s = false /\ run_btn s = normal /\ cancel_btn s = disabled
  /\ threads s = [] /\ worker_thread s = None /\ dialogs s = []
  /\ as_mp3_var s = true /\ url_var s = ""
  /\ log_queue s = []
  /\ log_text s
     = [chunk "準備OK：URL と 保存先 を指定して、形式を切り替えてください。"]
  /\ save_dir_var s
     = match home_downloads w with
       | Some d => if os_path_isdir w d then d else ""
       | None => ""
       end
  /\ (save_dir_var s <> "" -> os_path_isdir w (save_dir_var s) = true).
Proof.
  cbv zeta. unfold __init__. rewrite poll_eq. unfold _build_widgets.
  destruct (home_downloads w) as [d|]; [|by repeat split].
  destruct (os_path_isdir w d) eqn:Hd; by repeat split.
Qed.

(** X10. The cancel button never disables itself: while it is enabled every
    press puts one more line on the queue and leaves the flag clear, and
    touches neither the threads, nor the buttons, nor the message boxes;
    while it is disabled a press does nothing. *)
Theorem cancel_presses_only_log (w : world) (n : nat) (s : gui) :
  let s' := Nat.iter n (step w ClickCancel) s in
  (cancel_btn s = disabled -> s' = s)
  /\ (cancel_btn s = normal ->
      log_queue s' = log_queue s ++ replicate n cancel_message
      /\ is_downloading s' = (if n is 0 then is_downloading s else false)
      /\ threads s' = threads s /\ dialogs s' = dialogs s
      /\ run_btn s' = run_btn s /\ cancel_btn s' = normal).
Proof.
  cbv zeta. split.
  - intros Hbtn. induction n as [|n IH]; [done|].
    rewrite Nat.iter_succ, IH. simpl. by rewrite Hbtn.
  - intros Hbtn. induction n as [|n IH].
    { simpl. by rewrite app_nil_r. }
    rewrite Nat.iter_succ.
    destruct IH as (Hq & _ & Ht & Hd & Hr & Hc).
    cbn [step]. rewrite Hc. cbn [press].
    unfold _on_cancel_clicked, _log. simpl.
    rewrite Hq, Ht, Hd, Hr, Hc. repeat split.
    rewrite <- app_assoc. f_equal.
    change (cancel_message :: replicate n cancel_message)
      with (replicate (S n) cancel_message).
    by rewrite replicate_S_end.
Qed.

(** X11. Each press of the switch flips the format and puts one line naming the
    new format: after [n] presses the format is the old one exactly when
    [n] is even, [n] lines have been added, and the last names the format
    now selected. *)
Theorem toggle_flips_and_logs (n : nat) (s : gui) :
  let s' := Nat.iter n _toggle s in
  as_mp3_var s' = (if Nat.even n then as_mp3_var s else negb (as_mp3_var s))
  /\ length (log_queue s') = length (log_queue s) + n
  /\ (0 < n ->
      last (log_queue s')
      = Some ("形式を切替: " +:+
              (if as_mp3_var s' then "MP3(音声)" else "MP4(動画)"))).
Proof.
  cbv zeta. induction n as [|n (IHv & IHl & IHlast)].
  { simpl. repeat split; [lia | lia]. }
  rewrite Nat.iter_succ.
  set (s1 := Nat.iter n _toggle s) in *.
  split; [|split].
  - change (as_mp3_var (_toggle s1)) with (negb (as_mp3_var s1)).
    rewrite IHv, Nat.even_succ, <- Nat.negb_even.
    destruct (Nat.even n); simpl; [done|]. by rewrite negb_involutive.
  - unfold _toggle, _on_toggle_changed, _log. simpl.
    rewrite length_app, IHl. simpl. lia.
  - intros _. unfold _toggle, _on_toggle_changed, _log. simpl.
    by rewrite last_snoc.
Qed.

(** X12. The progress hook puts a progress line only when a total is known and
    is not zero, so the percentage is never computed over zero: it takes
    [total_bytes] when that is there and not zero and [total_bytes_estimate]
    otherwise, and [0] for missing [downloaded_bytes]; with neither total it
    puts nothing; for the status [finished] it puts the one line of the
    conversion; and for any other status it puts nothing. *)
Theorem hook_progress_needs_total (w : world) (d : progress) (s : gui) :
  let p := default 0%Z (downloaded_bytes d) in
  let line t := format_progress w p t (speed d) (eta d) in
  let known x := exists t, x = Some t /\ t <> 0%Z in
  (status d = Some "downloading" ->
   (forall t, total_bytes d = Some t -> t <> 0%Z ->
      log_queue (hook w d s) = log_queue s ++ [line t])
   /\ (forall t, ~ known (total_bytes d) ->
         total_bytes_estimate d = Some t -> t <> 0%Z ->
         log_queue (hook w d s) = log_queue s ++ [line t])
   /\ (~ known (total_bytes d) -> ~ known (total_bytes_estimate d) ->
       hook w d s = s))
  /\ (status d = Some "finished" ->
      log_queue (hook w d s) = log_queue s ++ ["変換/結合中…"])
  /\ (status d <> Some "downloading" -> status d <> Some "finished" ->
      hook w d s = s).
Proof.
  cbv zeta.
  assert (forall x : option Z,
            truthy_num x = true <-> exists t, x = Some t /\ t <> 0%Z) as Htruthy.
  { intros [z|]; simpl.
    - rewrite negb_true_iff, Z.eqb_neq. split; [by eauto|].
      by intros (t & [= <-] & ?).
    - split; [done|]. by intros (t & ? & _). }
  unfold hook. split; [|split].
  - intros ->. rewrite decide_True by done.
    split; [|split].
    + intros t Ht Hnz. unfold or_num.
      assert (truthy_num (total_bytes d) = true) as Htr
        by (apply Htruthy; eauto).
      rewrite Htr, Ht. by rewrite <- Ht, Htr.
    + intros t Hno Ht Hnz. unfold or_num.
      assert (truthy_num (total_bytes d) = false) as Hfa.
      { destruct (truthy_num (total_bytes d)) eqn:E; [|done].
        apply Htruthy in E. done. }
      assert (truthy_num (total_bytes_estimate d) = true) as Htr
        by (apply Htruthy; eauto).
      rewrite Hfa, Ht. by rewrite <- Ht, Htr.
    + intros Hno1 Hno2. unfold or_num.
      assert (truthy_num (total_bytes d) = false) as Hfa.
      { destruct (truthy_num (total_bytes d)) eqn:E; [|done].
        apply Htruthy in E. done. }
      assert (truthy_num (total_bytes_estimate d) = false) as Hfa2.
      { destruct (truthy_num (total_bytes_estimate d)) eqn:E; [|done].
        apply Htruthy in E. done. }
      rewrite Hfa. destruct (total_bytes_estimate d); [|done].
      by rewrite Hfa2.
  - intros ->. rewrite decide_False by done. by rewrite decide_True.
  - intros H1 H2. by rewrite !decide_False.
Qed.

Section StripConverse.
Import PyStr.

Lemma rstrip_empty_blank s : rstrip s = "" -> blank s = true.
Proof.
  destruct s as [|c s]; [done|]. cbn [rstrip].
  by destruct (blank (String c s)).
Qed.

Lemma lstrip_blank_len n : forall s,
  String.length s <= n -> blank (lstrip s) = true -> blank s = true.
Proof.
  induction n as [|n IH]; intros s Hn Hb.
  - destruct s; [done | simpl in Hn; lia].
  - destruct s as [|c1 s1]; [done|].
    cbn [lstrip] in Hb. cbn [blank]. simpl in Hn.
    destruct (space1 c1) eqn:H1; [apply IH; [lia | done]|].
    destruct s1 as [|c2 s2].
    { cbn [blank] in Hb. by rewrite H1 in Hb. }
    simpl in Hn.
    destruct (space2 c1 c2) eqn:H2; [apply IH; [lia | done]|].
    destruct s2 as [|c3 s3].
    { cbn [blank] in Hb. by rewrite H1, H2 in Hb. }
    simpl in Hn.
    destruct (space3 c1 c2 c3) eqn:H3; [apply IH; [lia | done]|].
    cbn [blank] in Hb. by rewrite H1, H2, H3 in Hb.
Qed.

Lemma strip_empty_iff_blank s : strip s = "" <-> blank s = true.
Proof.
  split; [|apply blank_strip].
  intros H. apply (lstrip_blank_len (String.length s)); [done|].
  by apply rstrip_empty_blank.
Qed.

End StripConverse.

(** X13. In the idle state the URL warning is shown exactly when the URL field
    holds nothing but whitespace, and, the URL being present, the directory
    warning exactly when the directory field holds nothing but whitespace
    or, once stripped, does not name an existing directory. *)
Theorem input_warnings_characterised (w : world) (s : gui) :
  is_downloading s = false ->
  let s' := _on_run_clicked w s in
  (dialogs s' = dialogs s ++ [showwarning "入力不足" "URL を入力してください。"]
   <-> PyStr.blank (url_var s) = true)
  /\ (dialogs s'
      = dialogs s ++ [showwarning "入力不足" "保存先フォルダを正しく指定してください。"]
      <-> PyStr.blank (url_var s) = false
          /\ (PyStr.blank (save_dir_var s) = true
              \/ os_path_isdir w (PyStr.strip (save_dir_var s)) = false)).
Proof.
  intros Hidle. cbv zeta.
  assert (forall (l : list dialog) x, l <> l ++ [x]) as Hgrow.
  { intros l x H. apply (f_equal length) in H. rewrite length_app in H.
    simpl in H. lia. }
  assert (forall x, PyStr.truthy (PyStr.strip x) = negb (PyStr.blank x)) as Ht.
  { intros x. destruct (PyStr.blank x) eqn:Hb.
    - apply strip_empty_iff_blank in Hb. by rewrite Hb.
    - destruct (PyStr.truthy (PyStr.strip x)) eqn:E; [done|].
      apply truthy_false, strip_empty_iff_blank in E. congruence. }
  rewrite (run_clicked_idle w s Hidle). cbv zeta. rewrite !Ht.
  destruct (PyStr.blank (url_var s)); simpl.
  { split; split; try done.
    - intros H. apply app_inv_head in H. discriminate.
    - by intros [? _]. }
  destruct (PyStr.blank (save_dir_var s)); simpl.
  { split; split; try done.
    - intros H. apply app_inv_head in H. discriminate.
    - auto. }
  destruct (os_path_isdir w _); simpl.
  2:{ split; split; try done.
      - intros H. apply app_inv_head in H. discriminate.
      - auto. }
  destruct (import_yt_dlp w); [|destruct (which_ffmpeg w)]; simpl.
  - split; split; try done.
    + intros H. apply app_inv_head in H. discriminate.
    + intros H. apply app_inv_head in H. discriminate.
    + by intros [_ [?|?]].
  - split; split; try done.
    + intros H. by apply Hgrow in H.
    + intros H. by apply Hgrow in H.
    + by intros [_ [?|?]].
  - split; split; try done.
    + intros H. apply app_inv_head in H. discriminate.
    + intros H. apply app_inv_head in H. discriminate.
    + by intros [_ [?|?]].
Qed.

Lemma input_warnings_characterised_witness :
  dialogs (_on_run_clicked Sample.w_ok Sample.blank_url_form)
  = dialogs Sample.blank_url_form
    ++ [showwarning "入力不足" "URL を入力してください。"].
Proof.
  apply (input_warnings_characterised Sample.w_ok Sample.blank_url_form);
    reflexivity.
Defined.

Section Inputs.

Lemma script_calls w t o u : call_library o u ∈ script w t -> u = job_url t.
Proof.
  assert (forall l : list statement,
            Forall (fun st => match st with
                              | call_library _ _ => False
                              | _ => True
                              end) l ->
            call_library o u ∈ l -> False) as Hnone.
  { intros l Hl H. rewrite Forall_forall in Hl. exact (Hl _ H). }
  assert (forall l : list string,
            Forall (fun st => match st with
                              | call_library _ _ => False
                              | _ => True
                              end) (put_line <$> l)) as Hputs.
  { induction l; simpl; by constructor. }
  unfold script, except_block, finally_block. destruct t as [url dir as_mp3].
  destruct (import_yt_dlp w) as [msg|].
  { intros H. exfalso. revert H. apply Hnone. by repeat constructor. }
  destruct (extract_info w _ url) as [evs r]. simpl.
  rewrite elem_of_cons. intros [[= _ <-]|H]; [done|].
  exfalso. revert H. apply Hnone.
  apply Forall_app. split; [apply Forall_app; split; [apply Hputs|]|].
  - destruct r as [x|[info|]].
    + destruct (exn_is_Exception x); by repeat constructor.
    + destruct (os_path_exists w _); by repeat constructor.
    + by repeat constructor.
  - by repeat constructor.
Qed.

Lemma step_records w ev s :
  extractions (step w ev s) = extractions s
  /\ (threads (step w ev s) = threads s
      \/ exists t, threads (step w ev s) = threads s ++ [t]
                   /\ job_url t <> "" /\ job_save_dir t <> "").
Proof.
  destruct ev; cbn [step]; try (by split; [|left]).
  - unfold _paste_from_clipboard. destruct (clipboard_get w); by split; [|left].
  - unfold _choose_dir. destruct (PyStr.truthy _); by split; [|left].
  - destruct (run_btn s); cbn [press]; [|by split; [|left]].
    destruct (is_downloading s) eqn:Hd.
    { rewrite run_clicked_running by done. by split; [|left]. }
    destruct (run_clicked_outcome w s Hd) as [(d & -> & _)|[-> Hv]];
      [by split; [|left]|].
    split; [done|]. right. eexists. split; [reflexivity|].
    destruct Hv as (? & ? & _). by split.
  - destruct (cancel_btn s); cbn [press]; by split; [|left].
  - rewrite poll_eq. by split; [|left].
Qed.

Lemma inputs_start w : inputs_inv (app_start w).
Proof.
  unfold inputs_inv, app_start. cbn [self].
  assert (threads (__init__ w) = [] /\ extractions (__init__ w) = [])
    as [-> ->].
  { unfold __init__. rewrite poll_eq. unfold _build_widgets.
    by repeat case_match. }
  split; [|split].
  - intros i t H. by rewrite lookup_nil in H.
  - intros i rest o u H. unfold slot in H. cbn [todo] in H.
    by rewrite lookup_nil in H.
  - intros o u H. by apply elem_of_nil in H.
Qed.

Lemma inputs_step w oc a : inputs_inv a -> inputs_inv (app_step w oc a).
Proof.
  destruct a as [s td]. intros (K1 & K2 & K3). cbn [self] in *.
  destruct oc as [ev|i]; cbn [app_step self todo].
  - destruct (step_records w ev s) as [He Ht].
    unfold inputs_inv. cbn [self]. rewrite He.
    split; [|split; [exact K2 | exact K3]].
    destruct Ht as [-> | (t & -> & Hok)]; [exact K1|].
    intros i t' Hi. apply lookup_app_Some in Hi as [Hi|[_ Hi]];
      [by eapply K1|].
    apply list_lookup_singleton_Some in Hi as [_ <-]. exact Hok.
  - unfold thread_step. cbn [self todo].
    destruct (threads s !! i) as [t|] eqn:Hi; [|by split].
    assert (forall o u, call_library o u ∈ remaining w t i (App s td) ->
                        u <> "") as Hcalls.
    { intros o u. rewrite remaining_eq. fold (slot (App s td) i).
      destruct (slot (App s td) i) as [r|] eqn:Hs; simpl.
      - by eapply K2.
      - intros H. apply script_calls in H as ->. by apply (K1 i t). }
    destruct (remaining w t i _) as [|st rest] eqn:HR.
    + unfold inputs_inv. cbn [self].
      split; [|split; [|exact K3]].
      * intros j t'. cbn. intros Hj.
        destruct (decide (j < i)).
        -- rewrite list_lookup_delete_lt in Hj by done. by eapply K1.
        -- rewrite list_lookup_delete_ge in Hj by lia. by eapply K1.
      * intros j r o u. rewrite (slot_delete s). apply K2.
    + unfold inputs_inv. cbn [self]. rewrite perform_threads.
      split; [exact K1|split].
      * intros j r o u. rewrite (slot_next s).
        destruct (decide (j = i)); [|apply K2].
        intros [= <-] H. apply (Hcalls o). by right.
      * intros o u H.
        destruct st; try (by apply (K3 o u)).
        cbn in H. apply elem_of_app in H as [H|H]; [by apply (K3 o u)|].
        apply list_elem_of_singleton in H as [= -> ->].
        apply (Hcalls opts). by left.
Qed.

Lemma inputs_run tr : forall a, inputs_inv a -> inputs_inv (app_run tr a).
Proof.
  induction tr as [|[w oc] tr IH]; intros a Hinv; [done|].
  rewrite app_run_cons. by apply IH, inputs_step.
Qed.

End Inputs.

(** X14. Over every run from start-up no worker thread is live on an empty URL
    or an empty directory, and the extraction library is never called on an
    empty URL. *)
Theorem library_never_called_on_empty_url
    (w0 : world) (tr : list (world * occurrence)) :
  let s := self (app_run tr (app_start w0)) in
  (forall t, t ∈ threads s -> job_url t <> "" /\ job_save_dir t <> "")
  /\ (forall opts url, (opts, url) ∈ extractions s -> url <> "").
Proof.
  cbv zeta.
  destruct (inputs_run tr _ (inputs_start w0)) as (K1 & _ & K3).
  split; [|exact K3].
  intros t Ht. apply list_elem_of_lookup in Ht as [i Hi]. by eapply K1.
Qed.

(* ===================================================================== *)
(** * The switch widget *)
(* ===================================================================== *)

(** X15. For a switch at least six pixels high and wider than high, the knob is
    a circle of diameter [height - 6] that lies inside the box of the track,
    three pixels from its left end when off and three pixels from its right
    end when on; it and the label, [on_text] or [off_text] by the value, are
    the last two things drawn. *)
Theorem knob_stays_inside_track (on : bool) (sw : ToggleSwitch.t) :
  (6 <= ToggleSwitch.height sw)%Z ->
  (ToggleSwitch.height sw + 1 <= ToggleSwitch.width sw)%Z ->
  let w := ToggleSwitch.width sw in
  let h := ToggleSwitch.height sw in
  let kx := (if on then (w - 2) - 3 - (h - 6) else 2 + 3)%Z in
  (exists track,
     ToggleSwitch.canvas (ToggleSwitch._redraw on sw)
     = track
       ++ [ToggleSwitch.create_oval kx 3 (kx + (h - 6)) (3 + (h - 6))
             "#ffffff" "#dddddd";
           ToggleSwitch.create_text (w `div` 2) (h `div` 2)
             (if on then ToggleSwitch.on_text sw else ToggleSwitch.off_text sw)
             "white" ("Meiryo UI", 10%Z, "bold")])
  /\ ToggleSwitch.inside (kx, 3, kx + (h - 6), 3 + (h - 6))%Z
                         (2, 2, w - 2, h - 2)%Z
  /\ (if on then kx + (h - 6) = (w - 2) - 3 else kx = 2 + 3)%Z.
Proof.
  intros Hh Hw w h kx. subst w h kx. split; [|split].
  - unfold ToggleSwitch._redraw. cbn [ToggleSwitch.canvas].
    eexists. reflexivity.
  - unfold ToggleSwitch.inside. destruct on; lia.
  - destruct on; lia.
Qed.

Lemma knob_stays_inside_track_witness :
  ToggleSwitch.inside (180 - 2 - 3 - (36 - 6), 3,
                       180 - 2 - 3 - (36 - 6) + (36 - 6), 3 + (36 - 6))%Z
                      (2, 2, 180 - 2, 36 - 2)%Z.
Proof.
  refine (proj1 (proj2 (knob_stays_inside_track true
            (ToggleSwitch.of_app false Sample.filled) _ _))).
  - vm_compute. discriminate.
  - vm_compute. discriminate.
Defined.

(** X16. The canvas always shows the value of the variable: a redraw forgets what
    was drawn before, the two values are drawn differently, a press redraws
    for the flipped value while [self] changes as in [_toggle], and two
    presses bring the drawing and the value back. *)
Theorem switch_shows_variable (sw : ToggleSwitch.t) (s : gui) :
  (forall on on',
     ToggleSwitch._redraw on (ToggleSwitch._redraw on' sw)
     = ToggleSwitch._redraw on sw)
  /\ ToggleSwitch.canvas (ToggleSwitch._redraw true sw)
     <> ToggleSwitch.canvas (ToggleSwitch._redraw false sw)
  /\ ToggleSwitch._toggle sw s
     = (ToggleSwitch._redraw (negb (as_mp3_var s)) sw, _toggle s)
  /\ (let '(sw1, s1) := ToggleSwitch._toggle sw s in
      let '(sw2, s2) := ToggleSwitch._toggle sw1 s1 in
      sw2 = ToggleSwitch._redraw (as_mp3_var s) sw
      /\ as_mp3_var s2 = as_mp3_var s).
Proof.
  assert (forall on on',
            ToggleSwitch._redraw on (ToggleSwitch._redraw on' sw)
            = ToggleSwitch._redraw on sw) as Hre.
  { intros on on'. by destruct sw. }
  split; [exact Hre|]. split; [|split].
  - unfold ToggleSwitch._redraw. cbn [ToggleSwitch.canvas].
    destruct (ToggleSwitch.round_rect sw); simpl; intros [=].
  - unfold ToggleSwitch._toggle. simpl. by rewrite Hre.
  - unfold ToggleSwitch._toggle. simpl. rewrite !Hre.
    by rewrite negb_involutive.
Qed.

(** X17. A poll moves the whole queue, front first, to the end of the log pane,
    each line with its line feed, and changes nothing else; a second poll
    right after it, or a poll on an empty queue, changes nothing at all. *)
Theorem poll_moves_queue_to_pane (s : gui) :
  let s' := _poll_log_queue s in
  log_text s' = log_text s ++ ((fun line => line +:+ nl) <$> log_queue s)
  /\ log_queue s' = []
  /\ set_log_text [] (set_log_queue [] s') = set_log_text [] (set_log_queue [] s)
  /\ _poll_log_queue s' = s'
  /\ (log_queue s = [] -> s' = s).
Proof.
  cbv zeta. rewrite !poll_eq. unfold channel. simpl.
  split; [done|]. split; [done|]. split; [done|]. split.
  - destruct s; simpl. unfold set_log_queue, set_log_text; simpl.
    by rewrite app_nil_r.
  - intros Hq. destruct s; simpl in *. subst.
    unfold set_log_queue, set_log_text; simpl. by rewrite app_nil_r.
Qed.

(** A library that returns [None] instead of metadata: the worker reports
    the failed attribute lookup and opens nothing. *)
Example none_metadata_is_reported :
  let e := worker_effects Sample2.w_none Sample2.job in
  boxes_shown e
  = [showerror "エラー"
       ("ダウンロードでエラーが発生しました:" +:+ nl +:+
        "'NoneType' object has no attribute 'get'")]
  /\ files_opened e = []
  /\ lines_put e
     = ["エラー: 'NoneType' object has no attribute 'get'";
        "待機中。別のURLで続けられます。"].
Proof. vm_compute. repeat split. Qed.
